(** * Study planner: the due-reminder sweep and the session store

    A shallow embedding of [app.py] (session creation, toggle, delete,
    JSON/CSV import and export, the calendar, the Telegram dispatch and the
    due-reminder sweep), followed by the properties of the reminder subsystem
    and of the handlers around it.

    Conventions of the embedding.
    - Python [int] is [Z].  A [str] the application stores or sends is a
      [string] holding its UTF-8 bytes; [codepoints] reads the characters
      off.  [str.strip], [int] and the regular expressions of [strptime]
      use the character classes of CPython: the white space of
      [str.isspace] and the decimal digits of Unicode 14.0 (CPython 3.11).
      A [str] with a lone surrogate has no UTF-8 form; it occurs only as an
      argument of [send_telegram_message], see [str].  The two settings read
      from the environment (bot token and chat id) are UTF-8 text.
    - SQL [INTEGER] columns are [Z], [TEXT] columns are [string].  The
      database is SQLite, the default of the application.
    - A function that may raise returns a [result]; a function that also
      touches the database or the network lives in the monad [M].
    - Store access itself is taken to succeed: no connection failure, and
      no value the store refuses.  SQLite holds 64-bit integers and refuses
      to bind a larger one with [OverflowError]; a property that needs an
      [INSERT] of a number taken from a request to succeed says so with
      [sqlite_int].
    - [int] reads a literal of any length.  CPython 3.11 raises
      [ValueError] beyond 4300 digits unless that limit is switched off; a
      property that needs a conversion to succeed says so with
      [within_digit_limit]. *)

From Stdlib Require Import ZArith List String Ascii Bool Lia DecimalString.
From Stdlib Require Import DecimalPos DecimalZ Permutation.
Import ListNotations.

Local Open Scope string_scope.
Local Open Scope list_scope.
Local Open Scope Z_scope.

(** ** Python runtime pieces *)

Module Py.

(** The exception classes that occur.  [UnicodeEncodeError] derives from
    [ValueError]; [KeyboardInterrupt] and [SystemExit] derive from
    [BaseException] only, the others from [Exception]. *)
Inductive exn : Type :=
| ValueError
| UnicodeEncodeError
| TypeError
| OverflowError
| OSError
| URLError
| HTTPError (status : Z)
| TimeoutError
| KeyboardInterrupt
| SystemExit.

Definition is_Exception (e : exn) : bool :=
  match e with
  | KeyboardInterrupt | SystemExit => false
  | _ => true
  end.

(** [isinstance(e, ValueError)] *)
Definition is_ValueError (e : exn) : bool :=
  match e with
  | ValueError | UnicodeEncodeError => true
  | _ => false
  end.

Inductive result (A : Type) : Type :=
| Ok (a : A)
| Raise (e : exn).
Arguments Ok {A} a.
Arguments Raise {A} e.

Definition rbind {A B} (r : result A) (k : A -> result B) : result B :=
  match r with
  | Ok a => k a
  | Raise e => Raise e
  end.

(** *** Characters *)

Definition byte (c : ascii) : Z := Z.of_N (N_of_ascii c).

Definition char_of (z : Z) : ascii := ascii_of_N (Z.to_N z).

(** The bytes 10xxxxxx that continue a character. *)
Definition continuation (c : ascii) : bool := (0x80 <=? byte c) && (byte c <? 0xC0).

Definition low6 (c : ascii) : Z := byte c - 0x80.

(** The characters of a text, from its UTF-8 bytes.  A byte that starts or
    continues no character is read as [0xDC00 + byte], the way the
    interpreter itself carries undecodable bytes. *)
Fixpoint codepoints (s : string) : list Z :=
  match s with
  | EmptyString => []
  | String a s1 =>
      let stray := 0xDC00 + byte a in
      if byte a <? 0x80 then byte a :: codepoints s1
      else
        match s1 with
        | EmptyString => [stray]
        | String b s2 =>
            if negb (continuation b) then stray :: codepoints s1
            else if (0xC0 <=? byte a) && (byte a <? 0xE0) then
              (byte a - 0xC0) * 64 + low6 b :: codepoints s2
            else
              match s2 with
              | EmptyString => stray :: codepoints s1
              | String c s3 =>
                  if negb (continuation c) then stray :: codepoints s1
                  else if (0xE0 <=? byte a) && (byte a <? 0xF0) then
                    (byte a - 0xE0) * 4096 + low6 b * 64 + low6 c :: codepoints s3
                  else
                    match s3 with
                    | EmptyString => stray :: codepoints s1
                    | String d s4 =>
                        if continuation d && (0xF0 <=? byte a) && (byte a <? 0xF8) then
                          (byte a - 0xF0) * 262144 + low6 b * 4096 + low6 c * 64
                          + low6 d :: codepoints s4
                        else stray :: codepoints s1
                    end
              end
        end
  end.

(** The UTF-8 bytes of one character. *)
Definition utf8_char (p : Z) : string :=
  if p <? 0x80 then String (char_of p) ""
  else if p <? 0x800 then
    String (char_of (0xC0 + p / 64)) (String (char_of (0x80 + p mod 64)) "")
  else if (0xDC80 <=? p) && (p <=? 0xDCFF) then String (char_of (p - 0xDC00)) ""
  else if p <? 0x10000 then
    String (char_of (0xE0 + p / 4096))
      (String (char_of (0x80 + (p / 64) mod 64))
         (String (char_of (0x80 + p mod 64)) ""))
  else
    String (char_of (0xF0 + p / 262144))
      (String (char_of (0x80 + (p / 4096) mod 64))
         (String (char_of (0x80 + (p / 64) mod 64))
            (String (char_of (0x80 + p mod 64)) ""))).

Fixpoint utf8 (l : list Z) : string :=
  match l with
  | [] => ""
  | p :: l' => (utf8_char p ++ utf8 l')%string
  end.

(** The bytes of a text, and [s.isascii()]: an ASCII character is its own
    byte. *)
Fixpoint bytes (s : string) : list Z :=
  match s with
  | EmptyString => []
  | String c s' => byte c :: bytes s'
  end.

Fixpoint is_ascii (s : string) : bool :=
  match s with
  | EmptyString => true
  | String c s' => (byte c <? 0x80) && is_ascii s'
  end.

(** [c.isspace()]: the white space of [str.strip] and of [\s]. *)
Definition is_space (p : Z) : bool :=
  (0x09 <=? p) && (p <=? 0x0D) || (0x1C <=? p) && (p <=? 0x20)
  || (p =? 0x85) || (p =? 0xA0) || (p =? 0x1680)
  || (0x2000 <=? p) && (p <=? 0x200A)
  || (p =? 0x2028) || (p =? 0x2029) || (p =? 0x202F) || (p =? 0x205F)
  || (p =? 0x3000).

(** Where the digit zero of each script sits; the nine other digits follow
    it. *)
Definition decimal_zeros : list Z :=
  [0x30; 0x660; 0x6F0; 0x7C0; 0x966; 0x9E6; 0xA66; 0xAE6; 0xB66; 0xBE6;
   0xC66; 0xCE6; 0xD66; 0xDE6; 0xE50; 0xED0; 0xF20; 0x1040; 0x1090; 0x17E0;
   0x1810; 0x1946; 0x19D0; 0x1A80; 0x1A90; 0x1B50; 0x1BB0; 0x1C40; 0x1C50;
   0xA620; 0xA8D0; 0xA900; 0xA9D0; 0xA9F0; 0xAA50; 0xABF0; 0xFF10; 0x104A0;
   0x10D30; 0x11066; 0x110F0; 0x11136; 0x111D0; 0x112F0; 0x11450; 0x114D0;
   0x11650; 0x116C0; 0x11730; 0x118E0; 0x11950; 0x11C50; 0x11D50; 0x11DA0;
   0x16A60; 0x16AC0; 0x16B50; 0x1D7CE; 0x1D7D8; 0x1D7E2; 0x1D7EC; 0x1D7F6;
   0x1E140; 0x1E2F0; 0x1E950; 0x1FBF0].

(** The value of a decimal digit ([c.isdecimal()], [\d]), if [p] is one. *)
Definition decimal (p : Z) : option Z :=
  match find (fun z => (z <=? p) && (p <? z + 10)) decimal_zeros with
  | Some z => Some (p - z)
  | None => None
  end.

Fixpoint lstrip (l : list Z) : list Z :=
  match l with
  | p :: l' => if is_space p then lstrip l' else l
  | [] => []
  end.

(** Drops trailing white space: a character is kept when it is not a space
    or something is kept after it. *)
Fixpoint rstrip (l : list Z) : list Z :=
  match l with
  | [] => []
  | p :: l' =>
      match rstrip l' with
      | [] => if is_space p then [] else [p]
      | t => p :: t
      end
  end.

(** [s.strip()] *)
Definition strip (s : string) : string := utf8 (rstrip (lstrip (codepoints s))).

(** Truth value of a [str]: non-empty. *)
Definition truthy (s : string) : bool :=
  match s with
  | EmptyString => false
  | _ => true
  end.

(** [x or d] on strings that may be [None]. *)
Definition or_default (x : option string) (d : string) : string :=
  match x with
  | Some s => if truthy s then s else d
  | None => d
  end.

(** *** [int(s)]

    [int] first rewrites the text to ASCII: a character below 127 stays,
    any other white space becomes a blank, any other decimal digit its
    ASCII digit, and anything else is no literal.  The rest is the parser
    of C: white space of [isspace], a sign, digits. *)

Definition ascii_of_point (p : Z) : option ascii :=
  if p <? 127 then Some (char_of p)
  else if is_space p then Some " "%char
  else
    match decimal p with
    | Some d => Some (char_of (48 + d))
    | None => None
    end.

Fixpoint ascii_form (l : list Z) : option string :=
  match l with
  | [] => Some EmptyString
  | p :: l' =>
      match ascii_of_point p, ascii_form l' with
      | Some c, Some t => Some (String c t)
      | _, _ => None
      end
  end.

(** [isspace] of C. *)
Definition c_isspace (c : ascii) : bool :=
  (9 <=? byte c) && (byte c <=? 13) || (byte c =? 32).

Definition is_digit (c : ascii) : bool := (48 <=? byte c) && (byte c <=? 57).

Definition digit_val (c : ascii) : Z := byte c - 48.

Fixpoint c_lstrip (s : string) : string :=
  match s with
  | String c s' => if c_isspace c then c_lstrip s' else s
  | EmptyString => EmptyString
  end.

Fixpoint c_rstrip (s : string) : string :=
  match s with
  | EmptyString => EmptyString
  | String c s' =>
      match c_rstrip s' with
      | EmptyString => if c_isspace c then EmptyString else String c EmptyString
      | t => String c t
      end
  end.

(** Digits of an integer literal; a single underscore is allowed between two
    digits.  [seen] tells whether the previous character was a digit. *)
Fixpoint digits_value (acc : Z) (seen : bool) (s : string) : option Z :=
  match s with
  | EmptyString => if seen then Some acc else None
  | String c s' =>
      if is_digit c then digits_value (acc * 10 + digit_val c) true s'
      else if (Ascii.eqb c "_" && seen)%bool then
             match s' with
             | String d _ => if is_digit d then digits_value acc false s' else None
             | EmptyString => None
             end
      else None
  end.

(** [int(s)] for a [str]: [ValueError] when [s] is no literal. *)
Definition int_of_str (s : string) : result Z :=
  match ascii_form (codepoints s) with
  | None => Raise ValueError
  | Some a =>
      let body := c_rstrip (c_lstrip a) in
      let '(neg, ds) :=
        match body with
        | String "-" t => (true, t)
        | String "+" t => (false, t)
        | _ => (false, body)
        end in
      match digits_value 0 false ds with
      | Some v => Ok (if neg then - v else v)
      | None => Raise ValueError
      end
  end.

(** [str(n)] for an [int]. *)
Definition str_of_int (n : Z) : string := NilZero.string_of_int (Z.to_int n).

(** ["%0wd" % n] for [0 <= n]. *)
Definition zfill (w : nat) (n : Z) : string :=
  let s := str_of_int n in
  let fix zeros (k : nat) : string :=
    match k with
    | O => EmptyString
    | S k' => String "0" (zeros k')
    end in
  (zeros (w - String.length s)%nat ++ s)%string.

(** A [str] as a function can be handed it: the text the handlers build,
    held as its UTF-8 bytes, or a text given character by character, which
    may hold a lone surrogate. *)
Inductive str : Type :=
| Utf8 (bytes : string)
| Points (chars : list Z).

Definition is_surrogate (p : Z) : bool := (0xD800 <=? p) && (p <=? 0xDFFF).

(** [s.encode("utf-8")]: a lone surrogate cannot be encoded. *)
Definition encode_utf8 (s : str) : result string :=
  match s with
  | Utf8 bytes => Ok bytes
  | Points chars =>
      if existsb is_surrogate chars then Raise UnicodeEncodeError
      else Ok (utf8 chars)
  end.

End Py.

(** ** [datetime]: naive dates and instants *)

Module Datetime.
Import Py.

Record date : Type := mkDate { year : Z; month : Z; day : Z }.

Record datetime : Type := mkDatetime {
  dt_date : date;
  hour : Z;
  minute : Z;
  second : Z;
  microsecond : Z
}.

Definition MINYEAR : Z := 1.
Definition MAXYEAR : Z := 9999.

Definition is_leap (y : Z) : bool :=
  ((y mod 4 =? 0) && (negb (y mod 100 =? 0) || (y mod 400 =? 0)))%bool.

Definition days_in_month (y m : Z) : Z :=
  if m =? 2 then (if is_leap y then 29 else 28)
  else if (m =? 4) || (m =? 6) || (m =? 9) || (m =? 11) then 30
  else 31.

(** What the [date] constructor accepts. *)
Definition valid_date (d : date) : bool :=
  (MINYEAR <=? year d) && (year d <=? MAXYEAR)
  && (1 <=? month d) && (month d <=? 12)
  && (1 <=? day d) && (day d <=? days_in_month (year d) (month d)).


(** [d.isoformat()]: ["%04d-%02d-%02d"]. *)
Definition isoformat (d : date) : string :=
  (zfill 4 (year d) ++ "-" ++ zfill 2 (month d) ++ "-" ++ zfill 2 (day d))%string.

(** Instants compare field by field, most significant first. *)
Definition fields (t : datetime) : list Z :=
  [year (dt_date t); month (dt_date t); day (dt_date t);
   hour t; minute t; second t; microsecond t].

Fixpoint lex_compare (a b : list Z) : comparison :=
  match a, b with
  | [], [] => Eq
  | [], _ :: _ => Lt
  | _ :: _, [] => Gt
  | x :: a', y :: b' =>
      match x ?= y with
      | Eq => lex_compare a' b'
      | c => c
      end
  end.

(** [a <= b] on [datetime]. *)
Definition datetime_le (a b : datetime) : bool :=
  match lex_compare (fields a) (fields b) with
  | Gt => false
  | _ => true
  end.

Definition next_day (d : date) : result date :=
  if day d <? days_in_month (year d) (month d) then
    Ok (mkDate (year d) (month d) (day d + 1))
  else if month d <? 12 then Ok (mkDate (year d) (month d + 1) 1)
  else if year d <? MAXYEAR then Ok (mkDate (year d + 1) 1 1)
  else Raise OverflowError.

(** [t + timedelta(minutes=n)] for [0 <= n <= 1440]: the minutes carry into
    the hour and at most once into the date; leaving year 9999 raises
    [OverflowError]. *)
Definition add_minutes (t : datetime) (n : Z) : result datetime :=
  let m := hour t * 60 + minute t + n in
  if m <? 1440 then
    Ok (mkDatetime (dt_date t) (m / 60) (m mod 60) (second t) (microsecond t))
  else
    rbind (next_day (dt_date t)) (fun d =>
    Ok (mkDatetime d ((m - 1440) / 60) ((m - 1440) mod 60)
                   (second t) (microsecond t))).

(** *** [datetime.strptime(s, "%Y-%m-%d %H:%M")]

    [_strptime] turns the format into a regular expression, takes the first
    match the backtracking engine finds at the start of the text, and then
    rejects the text when the match stops short of its end.  A matcher here
    returns every way to match a prefix of the characters, in the engine's
    order of preference, each with the captured number and the characters
    left.  [\d] is any decimal digit and [\s] any white space; a class such
    as [[0-5]] holds ASCII digits only. *)

Definition matcher (A : Type) : Type := list Z -> list (A * list Z).

Definition m_ret {A} (a : A) : matcher A := fun s => [(a, s)].

Definition m_bind {A B} (p : matcher A) (k : A -> matcher B) : matcher B :=
  fun s => flat_map (fun '(a, rest) => k a rest) (p s).

(** [p|q] *)
Definition m_alt {A} (p q : matcher A) : matcher A :=
  fun s => p s ++ q s.

(** One character of a class, captured as the digit it stands for. *)
Definition m_class (f : Z -> option Z) : matcher Z :=
  fun s =>
    match s with
    | p :: rest =>
        match f p with
        | Some v => [(v, rest)]
        | None => []
        end
    | [] => []
    end.

(** [[lo-hi]] for two ASCII digits. *)
Definition in_range (lo hi : ascii) (p : Z) : option Z :=
  if (byte lo <=? p) && (p <=? byte hi) then Some (p - 48) else None.

(** A character that stands for itself. *)
Definition m_lit (c : ascii) : matcher Z :=
  m_class (fun p => if p =? byte c then Some 0 else None).

(** Two characters read as a two-digit number. *)
Definition m_two (f g : Z -> option Z) : matcher Z :=
  m_bind (m_class f) (fun a => m_bind (m_class g) (fun b => m_ret (10 * a + b))).

(** [\s*] and [\s+], greedy: the longest run first. *)
Fixpoint m_spaces_star (s : list Z) : list (Z * list Z) :=
  match s with
  | p :: rest => if is_space p then m_spaces_star rest ++ [(0, s)] else [(0, s)]
  | [] => [(0, s)]
  end.

Definition m_spaces_plus : matcher Z :=
  fun s =>
    match s with
    | p :: rest => if is_space p then m_spaces_star rest else []
    | [] => []
    end.

(** [%Y] is [\d\d\d\d]. *)
Definition re_Y : matcher Z :=
  m_bind (m_class decimal) (fun a =>
  m_bind (m_class decimal) (fun b =>
  m_bind (m_class decimal) (fun c =>
  m_bind (m_class decimal) (fun d =>
  m_ret (1000 * a + 100 * b + 10 * c + d))))).

(** [%m] is [1[0-2]|0[1-9]|[1-9]]. *)
Definition re_m : matcher Z :=
  m_alt (m_two (in_range "1" "1") (in_range "0" "2"))
 (m_alt (m_two (in_range "0" "0") (in_range "1" "9"))
        (m_class (in_range "1" "9"))).

(** [%d] is [3[0-1]|[1-2]\d|0[1-9]|[1-9]| [1-9]]. *)
Definition re_d : matcher Z :=
  m_alt (m_two (in_range "3" "3") (in_range "0" "1"))
 (m_alt (m_two (in_range "1" "2") decimal)
 (m_alt (m_two (in_range "0" "0") (in_range "1" "9"))
 (m_alt (m_class (in_range "1" "9"))
        (m_bind (m_lit " ") (fun _ => m_class (in_range "1" "9")))))).

(** [%H] is [2[0-3]|[0-1]\d|\d]. *)
Definition re_H : matcher Z :=
  m_alt (m_two (in_range "2" "2") (in_range "0" "3"))
 (m_alt (m_two (in_range "0" "1") decimal)
        (m_class decimal)).

(** [%M] is [[0-5]\d|\d]. *)
Definition re_M : matcher Z :=
  m_alt (m_two (in_range "0" "5") decimal) (m_class decimal).

(** The whole format; the blank of the format stands for [\s+]. *)
Definition re_format : matcher (Z * Z * Z * Z * Z) :=
  m_bind re_Y (fun y =>
  m_bind (m_lit "-") (fun _ =>
  m_bind re_m (fun mo =>
  m_bind (m_lit "-") (fun _ =>
  m_bind re_d (fun d =>
  m_bind m_spaces_plus (fun _ =>
  m_bind re_H (fun h =>
  m_bind (m_lit ":") (fun _ =>
  m_bind re_M (fun mi =>
  m_ret (y, mo, d, h, mi)))))))))).

Definition strptime (s : string) : result datetime :=
  match re_format (codepoints s) with
  | [] => Raise ValueError                         (* does not match format *)
  | ((y, mo, d, h, mi), rest) :: _ =>
      match rest with
      | _ :: _ => Raise ValueError                 (* unconverted data remains *)
      | [] =>
          let dd := mkDate y mo d in
          if valid_date dd then Ok (mkDatetime dd h mi 0 0)
          else Raise ValueError                    (* day or year out of range *)
      end
  end.

End Datetime.

(** ** The relational store *)

Module Store.

(** Table [sessions]. *)
Record session_row : Type := mkSession {
  id : Z;
  user_id : Z;
  subject_id : option Z;
  title : string;
  session_date : string;
  session_time : string;
  duration_min : Z;
  priority : string;
  notes : string;
  completed : Z;
  reminder_sent : Z
}.

(** Table [subjects]. *)
Record subject_row : Type := mkSubject {
  subj_id : Z;
  subj_user_id : Z;
  name : string;
  color : string
}.

(** Both tables, in insertion order, with the next value of each
    auto-incremented primary key. *)
Record db : Type := mkDb {
  sessions : list session_row;
  subjects : list subject_row;
  next_session_id : Z;
  next_subject_id : Z
}.

Definition with_sessions (d : db) (l : list session_row) : db :=
  mkDb l (subjects d) (next_session_id d) (next_subject_id d).

Definition set_reminder_sent (r : session_row) (v : Z) : session_row :=
  mkSession (id r) (user_id r) (subject_id r) (title r) (session_date r)
            (session_time r) (duration_min r) (priority r) (notes r)
            (completed r) v.

Definition set_completed (r : session_row) (v : Z) : session_row :=
  mkSession (id r) (user_id r) (subject_id r) (title r) (session_date r)
            (session_time r) (duration_min r) (priority r) (notes r)
            v (reminder_sent r).

Definition set_subject_id (r : session_row) (v : option Z) : session_row :=
  mkSession (id r) (user_id r) v (title r) (session_date r)
            (session_time r) (duration_min r) (priority r) (notes r)
            (completed r) (reminder_sent r).

(** The five columns the sweep selects. *)
Record row : Type := mkRow {
  row_id : Z;
  row_title : string;
  row_session_date : string;
  row_session_time : string;
  row_duration_min : Z
}.

Definition select_columns (r : session_row) : row :=
  mkRow (id r) (title r) (session_date r) (session_time r) (duration_min r).

(** [WHERE user_id = ? AND session_date = ? AND completed = 0
     AND reminder_sent = 0] *)
Definition due_where (uid : Z) (today : string) (r : session_row) : bool :=
  (user_id r =? uid) && String.eqb (session_date r) today
  && (completed r =? 0) && (reminder_sent r =? 0).

(** [SELECT id, title, session_date, session_time, duration_min FROM sessions
     WHERE ...] *)
Definition select_due (uid : Z) (today : string) (d : db) : list row :=
  map select_columns (filter (due_where uid today) (sessions d)).

(** [UPDATE sessions SET reminder_sent = 1 WHERE id = ?] *)
Definition update_reminder_sent (sid : Z) (d : db) : db :=
  with_sessions d
    (map (fun r => if id r =? sid then set_reminder_sent r 1 else r) (sessions d)).

(** [INSERT INTO sessions (...) VALUES (...)]: the primary key is the next
    free one; [reminder_sent] is 0, written out by the form handler and left
    to the column default by the import handlers. *)
Definition insert_session (uid : Z) (subj : option Z)
    (ttl sdate stime : string) (minutes : Z) (prio nts : string) (compl : Z)
    (d : db) : db :=
  mkDb (sessions d ++
          [mkSession (next_session_id d) uid subj ttl sdate stime minutes
                     prio nts compl 0])
       (subjects d) (next_session_id d + 1) (next_subject_id d).

(** [UPDATE sessions SET completed = CASE WHEN completed = 1 THEN 0 ELSE 1 END
     WHERE id = ? AND user_id = ?] *)
Definition update_toggle (sid uid : Z) (d : db) : db :=
  with_sessions d
    (map (fun r =>
            if (id r =? sid) && (user_id r =? uid)
            then set_completed r (if completed r =? 1 then 0 else 1)
            else r)
         (sessions d)).

(** [DELETE FROM sessions WHERE id = ? AND user_id = ?] *)
Definition delete_session_row (sid uid : Z) (d : db) : db :=
  with_sessions d
    (filter (fun r => negb ((id r =? sid) && (user_id r =? uid))) (sessions d)).

Definition option_Z_eqb (a : option Z) (b : Z) : bool :=
  match a with
  | Some x => x =? b
  | None => false
  end.

(** [UPDATE sessions SET subject_id = NULL WHERE subject_id = ? AND user_id = ?] *)
Definition update_clear_subject (subj uid : Z) (d : db) : db :=
  with_sessions d
    (map (fun r =>
            if option_Z_eqb (subject_id r) subj && (user_id r =? uid)
            then set_subject_id r None
            else r)
         (sessions d)).

(** [DELETE FROM subjects WHERE id = ? AND user_id = ?] *)
Definition delete_subject_row (subj uid : Z) (d : db) : db :=
  mkDb (sessions d)
       (filter (fun s => negb ((subj_id s =? subj) && (subj_user_id s =? uid)))
               (subjects d))
       (next_session_id d) (next_subject_id d).

(** [SELECT id FROM subjects WHERE user_id = ? AND name = ?], first row. *)
Definition select_subject_id (uid : Z) (nm : string) (d : db) : option Z :=
  match filter (fun s => (subj_user_id s =? uid) && String.eqb (name s) nm)
               (subjects d) with
  | s :: _ => Some (subj_id s)
  | [] => None
  end.

(** [INSERT INTO subjects (user_id, name, color) VALUES (?, ?, ?)] *)
Definition insert_subject (uid : Z) (nm col : string) (d : db) : db :=
  mkDb (sessions d)
       (subjects d ++ [mkSubject (next_subject_id d) uid nm col])
       (next_session_id d) (next_subject_id d + 1).

(** The statements, as they appear in the access log. *)
Inductive sql : Type :=
| SELECT_due_sessions
| UPDATE_reminder_sent
| INSERT_session
| UPDATE_toggle_completed
| DELETE_session
| UPDATE_clear_subject
| DELETE_subject
| SELECT_subject_id
| INSERT_subject.

(** One call of [query], [execute] or [execute_many]; each opens its own
    connection.  [ExecuteMany] records the parameter of every statement of
    the batch. *)
Inductive db_call : Type :=
| Query (q : sql)
| Execute (q : sql)
| ExecuteMany (q : sql) (params_list : list Z).

End Store.

(** ** The application *)

Module App.
Import Py Datetime Store.

(** The body of one [urlopen] call: the URL and the form fields that
    [urlencode] serialises. *)
Record request : Type := mkRequest {
  req_url : string;
  req_data : list (string * string)
}.

(** Ways the network call can fail, with the exception each one raises. *)
Inductive net_failure : Type :=
| Timeout
| DnsFailure
| HttpStatus (code : Z)
| ConnectionLost.

Definition exn_of_failure (f : net_failure) : exn :=
  match f with
  | Timeout => TimeoutError
  | DnsFailure => URLError
  | HttpStatus c => HTTPError c
  | ConnectionLost => OSError
  end.

(** The network: whether the [k]-th call of the process, with the given
    request, succeeds ([None]) or how it fails. *)
Definition network : Type := nat -> request -> option net_failure.

(** Everything a request handler can observe or change: the database, the
    log of store accesses, and the network calls attempted so far. *)
Record world : Type := mkWorld {
  store : db;
  db_log : list db_call;
  outbox : list request
}.

(** State and exceptions: a computation ends normally or by raising, and
    either way leaves a world behind. *)
Definition M (A : Type) : Type := world -> result A * world.

Definition ret {A} (a : A) : M A := fun w => (Ok a, w).

Definition raise {A} (e : exn) : M A := fun w => (Raise e, w).

Definition bind {A B} (m : M A) (k : A -> M B) : M B :=
  fun w =>
    match m w with
    | (Ok a, w') => k a w'
    | (Raise e, w') => (Raise e, w')
    end.

Notation "x <- m ;; k" := (bind m (fun x => k))
  (at level 61, m at next level, right associativity).
Notation "m ;; k" := (bind m (fun _ => k))
  (at level 61, right associativity).

(** [lift r]: a pure step that may raise. *)
Definition lift {A} (r : result A) : M A := fun w => (r, w).

(** [try: m except <classes>: handler] *)
Definition try_except {A} (m : M A) (catches : exn -> bool) (handler : M A) : M A :=
  fun w =>
    match m w with
    | (Ok a, w') => (Ok a, w')
    | (Raise e, w') => if catches e then handler w' else (Raise e, w')
    end.

(** [for x in xs: body] *)
Fixpoint for_each {X} (xs : list X) (body : X -> M unit) : M unit :=
  match xs with
  | [] => ret tt
  | x :: rest => body x ;; for_each rest body
  end.

(** [query(sql, params)]: the statement is taken to succeed (see the
    conventions at the head of the file). *)
Definition query {A} (q : sql) (select : db -> A) : M A :=
  fun w => (Ok (select (store w)),
            mkWorld (store w) (db_log w ++ [Query q]) (outbox w)).

(** [execute(sql, params)]: the statement is taken to succeed, so the
    [OverflowError] of an integer outside 64 bits is not modelled here; see
    [sqlite_int]. *)
Definition execute (q : sql) (update : db -> db) : M unit :=
  fun w => (Ok tt,
            mkWorld (update (store w)) (db_log w ++ [Execute q]) (outbox w)).

(** [execute_many(sql, params_list)]: one connection, the statement run once
    for each parameter, in order. *)
Definition execute_many (q : sql) (update : Z -> db -> db) (params_list : list Z)
  : M unit :=
  fun w => (Ok tt,
            mkWorld (fold_left (fun d p => update p d) params_list (store w))
                    (db_log w ++ [ExecuteMany q params_list]) (outbox w)).

Definition REMINDER_MINUTES : Z := 30.

Definition nl : string := String (ascii_of_nat 10) EmptyString.

(** Where a handler sends the browser next. *)
Inductive response : Type :=
| Redirect (endpoint : string).

(** [request.form]: the submitted fields. *)
Definition form_data : Type := list (string * string).

Fixpoint lookup {V} (k : string) (l : list (string * V)) : option V :=
  match l with
  | [] => None
  | (k', v) :: rest => if String.eqb k' k then Some v else lookup k rest
  end.

(** [form.get(key, default)] *)
Definition form_get (f : form_data) (k default : string) : string :=
  match lookup k f with
  | Some v => v
  | None => default
  end.

(** A [float]: not a number, an infinity, or the number [m * 2^e]. *)
Inductive float : Type :=
| NaN
| Infinity (negative : bool)
| Finite (m e : Z).

(** [int(x)] for a [float]: the fraction is cut off. *)
Definition int_of_float (x : float) : result Z :=
  match x with
  | NaN => Raise ValueError
  | Infinity _ => Raise OverflowError
  | Finite m e => Ok (if 0 <=? e then m * 2 ^ e else Z.quot m (2 ^ (- e)))
  end.

(** A value [json.loads] returns.  A float, an array and an object come
    with the text [str] gives them, which the import may store as a title
    or a note; how that text is laid out is left open.  A string with a
    lone surrogate, which the store refuses, is left out. *)
#[warnings="-register-all"]
Inductive json : Type :=
| JNull
| JBool (b : bool)
| JInt (z : Z)
| JFloat (x : float) (text : string)
| JStr (s : string)
| JArr (items : list json) (text : string)
| JObj (fields : list (string * json)) (text : string).

(** [str(v)] *)
Definition json_str (v : json) : string :=
  match v with
  | JNull => "None"
  | JBool true => "True"
  | JBool false => "False"
  | JInt z => str_of_int z
  | JFloat _ text => text
  | JStr s => s
  | JArr _ text => text
  | JObj _ text => text
  end.

(** [int(v)] *)
Definition json_int (v : json) : result Z :=
  match v with
  | JNull => Raise TypeError
  | JBool b => Ok (if b then 1 else 0)
  | JInt z => Ok z
  | JFloat x _ => int_of_float x
  | JStr s => int_of_str s
  | JArr _ _ => Raise TypeError
  | JObj _ _ => Raise TypeError
  end.

(** [bool(v)] *)
Definition json_bool (v : json) : bool :=
  match v with
  | JNull => false
  | JBool b => b
  | JInt z => negb (z =? 0)
  | JFloat (Finite m _) _ => negb (m =? 0)
  | JFloat _ _ => true
  | JStr s => truthy s
  | JArr items _ => match items with [] => false | _ :: _ => true end
  | JObj fields _ => match fields with [] => false | _ :: _ => true end
  end.

(** One object of the uploaded JSON array. *)
Definition item : Type := list (string * json).

(** [item.get(key, default)] *)
Definition item_get (i : item) (k : string) (default : json) : json :=
  match lookup k i with
  | Some v => v
  | None => default
  end.

(** One record of [csv.DictReader]: the fields present, by column name. *)
Definition csv_row : Type := list (string * string).

Section Handlers.

(** Process-wide settings read from the environment at start-up: absent
    ([None]) or a string. *)
Variable TELEGRAM_BOT_TOKEN : option string.
Variable TELEGRAM_CHAT_ID : option string.

Variable urlopen : network.

(** [not v] for a setting. *)
Definition unset (v : option string) : bool :=
  match v with
  | Some s => negb (truthy s)
  | None => true
  end.

Definition setting (v : option string) : string :=
  match v with
  | Some s => s
  | None => EmptyString
  end.

Definition configured : bool :=
  negb (unset TELEGRAM_BOT_TOKEN || unset TELEGRAM_CHAT_ID).

(** [urllib.request.urlopen(url, data=data, timeout=5)]; the response is
    not used. *)
Definition urlopen_call (r : request) : M unit :=
  fun w =>
    let w' := mkWorld (store w) (db_log w) (outbox w ++ [r]) in
    match urlopen (List.length (outbox w)) r with
    | None => (Ok tt, w')
    | Some f => (Raise (exn_of_failure f), w')
    end.

(** [urllib.parse.urlencode({"chat_id": ..., "text": text})]: each value is
    encoded as UTF-8 before it is quoted, which raises at a lone surrogate;
    the fields are kept here as they are before quoting. *)
Definition urlencode (chat_id : string) (text : str)
  : result (list (string * string)) :=
  rbind (encode_utf8 text) (fun bytes =>
  Ok [("chat_id", chat_id); ("text", bytes)]).

Definition send_telegram_message (text : str) : M unit :=
  if unset TELEGRAM_BOT_TOKEN || unset TELEGRAM_CHAT_ID then ret tt
  else
    let url :=
      ("https://api.telegram.org/bot" ++ setting TELEGRAM_BOT_TOKEN
         ++ "/sendMessage")%string in
    data <- lift (urlencode (setting TELEGRAM_CHAT_ID) text) ;;
    try_except (urlopen_call (mkRequest url data)) is_Exception (ret tt).

(** The text of a reminder. *)
Definition reminder_text (r : row) : string :=
  ("Напоминание: скоро занятие" ++ nl
   ++ row_title r ++ " в " ++ row_session_time r ++ " ("
   ++ str_of_int (row_duration_min r) ++ " мин)")%string.

(** The loop of the sweep over the selected rows; [to_mark] grows by the id
    of every row found due. *)
Fixpoint reminder_loop (now window_end : datetime) (rows : list row)
    (to_mark : list Z) : M (list Z) :=
  match rows with
  | [] => ret to_mark
  | r :: rest =>
      match strptime (row_session_date r ++ " " ++ row_session_time r)%string with
      | Raise e =>
          if is_ValueError e then reminder_loop now window_end rest to_mark
          else raise e
      | Ok session_dt =>
          if datetime_le now session_dt && datetime_le session_dt window_end then
            send_telegram_message (Utf8 (reminder_text r)) ;;
            reminder_loop now window_end rest (to_mark ++ [row_id r])
          else reminder_loop now window_end rest to_mark
      end
  end.

(** [send_due_reminders(user_id)], with the value [datetime.now()] returns
    passed in as [now]. *)
Definition send_due_reminders (user_id : Z) (now : datetime) : M unit :=
  if unset TELEGRAM_BOT_TOKEN || unset TELEGRAM_CHAT_ID then ret tt
  else
    window_end <- lift (add_minutes now REMINDER_MINUTES) ;;
    let today := isoformat (dt_date now) in
    rows <- query SELECT_due_sessions (select_due user_id today) ;;
    to_mark <- reminder_loop now window_end rows [] ;;
    match to_mark with
    | [] => ret tt
    | _ :: _ => execute_many UPDATE_reminder_sent update_reminder_sent to_mark
    end.

(** The text sent when a session is created. *)
Definition creation_text (ttl sdate stime : string) (minutes : Z) (prio : string)
  : string :=
  ("Новое занятие: " ++ ttl ++ nl
   ++ "Когда: " ++ sdate ++ " " ++ stime ++ nl
   ++ "Длительность: " ++ str_of_int minutes ++ " мин" ++ nl
   ++ "Приоритет: " ++ prio)%string.

(** [POST /sessions/create] for the logged-in user. *)
Definition create_session (user_id : Z) (form : form_data) : M response :=
  let ttl := strip (form_get form "title" "") in
  let subject_id := strip (form_get form "subject_id" "") in
  let sdate := strip (form_get form "session_date" "") in
  let stime := strip (form_get form "session_time" "") in
  let duration := strip (form_get form "duration_min" "") in
  let prio := strip (form_get form "priority" "Средний") in
  let nts := strip (form_get form "notes" "") in
  if negb (truthy ttl) || negb (truthy sdate) || negb (truthy stime)
     || negb (truthy duration)
  then ret (Redirect "dashboard")
  else
    match int_of_str duration with
    | Raise e =>
        if is_ValueError e then ret (Redirect "dashboard") else raise e
    | Ok n =>
        let minutes := Z.max 10 n in
        let subject_value :=
          if truthy subject_id then
            match int_of_str subject_id with
            | Ok v => Some v
            | Raise _ => None                  (* [int] raises ValueError only *)
            end
          else None in
        execute INSERT_session
          (insert_session user_id subject_value ttl sdate stime minutes prio nts 0) ;;
        send_telegram_message (Utf8 (creation_text ttl sdate stime minutes prio)) ;;
        ret (Redirect "dashboard")
    end.

(** [POST /sessions/<id>/toggle] *)
Definition toggle_session (user_id session_id : Z) : M response :=
  execute UPDATE_toggle_completed (update_toggle session_id user_id) ;;
  ret (Redirect "dashboard").

(** [POST /sessions/<id>/delete] *)
Definition delete_session (user_id session_id : Z) : M response :=
  execute DELETE_session (delete_session_row session_id user_id) ;;
  ret (Redirect "dashboard").

(** [POST /subjects/<id>/delete] *)
Definition delete_subject (user_id subject_id : Z) : M response :=
  execute UPDATE_clear_subject (update_clear_subject subject_id user_id) ;;
  execute DELETE_subject (delete_subject_row subject_id user_id) ;;
  ret (Redirect "subjects").

(** The subject of an imported session: looked up by name, created at the
    first use. *)
Definition resolve_subject (user_id : Z) (subject_name : string) : M (option Z) :=
  if truthy subject_name then
    found <- query SELECT_subject_id (select_subject_id user_id subject_name) ;;
    match found with
    | Some sid => ret (Some sid)
    | None =>
        execute INSERT_subject (insert_subject user_id subject_name "#e7dfd5") ;;
        again <- query SELECT_subject_id (select_subject_id user_id subject_name) ;;
        match again with
        | Some sid => ret (Some sid)
        | None => raise TypeError
        end
    end
  else ret None.

Definition import_json_item (user_id : Z) (i : item) : M unit :=
  let ttl := strip (json_str (item_get i "title" (JStr ""))) in
  let sdate := strip (json_str (item_get i "date" (JStr ""))) in
  let stime := strip (json_str (item_get i "time" (JStr ""))) in
  minutes <- lift (json_int (item_get i "duration_min" (JInt 30))) ;;
  let prio := strip (json_str (item_get i "priority" (JStr "Средний"))) in
  let nts := strip (json_str (item_get i "notes" (JStr ""))) in
  let compl := if json_bool (item_get i "completed" (JInt 0)) then 1 else 0 in
  let subject_name := strip (json_str (item_get i "subject" (JStr ""))) in
  subject_id <- resolve_subject user_id subject_name ;;
  execute INSERT_session
    (insert_session user_id subject_id ttl sdate stime minutes prio nts compl).

(** [POST /import/json]; [file] is the decoded upload, taken to be an array
    of objects, [None] when no file came or it is not valid JSON. *)
Definition import_json (user_id : Z) (file : option (list item)) : M response :=
  match file with
  | None => ret (Redirect "dashboard")
  | Some data =>
      for_each data (import_json_item user_id) ;;
      ret (Redirect "dashboard")
  end.

Definition import_csv_row (user_id : Z) (r : csv_row) : M unit :=
  let ttl := strip (or_default (lookup "title" r) "") in
  let sdate := strip (or_default (lookup "date" r) "") in
  let stime := strip (or_default (lookup "time" r) "") in
  minutes <- lift (match lookup "duration_min" r with
                   | Some s => if truthy s then int_of_str s else Ok 30
                   | None => Ok 30
                   end) ;;
  let prio := strip (or_default (lookup "priority" r) "Средний") in
  let nts := strip (or_default (lookup "notes" r) "") in
  compl <- lift (match lookup "completed" r with
                 | Some s => if truthy s then int_of_str s else Ok 0
                 | None => Ok 0
                 end) ;;
  let subject_name := strip (or_default (lookup "subject" r) "") in
  if negb (truthy ttl) || negb (truthy sdate) || negb (truthy stime) then ret tt
  else
    subject_id <- resolve_subject user_id subject_name ;;
    execute INSERT_session
      (insert_session user_id subject_id ttl sdate stime minutes prio nts compl).

(** [POST /import/csv]; [file] holds the records of the upload, [None] when
    no file came or it is not UTF-8. *)
Definition import_csv (user_id : Z) (file : option (list csv_row)) : M response :=
  match file with
  | None => ret (Redirect "dashboard")
  | Some rows =>
      for_each rows (import_csv_row user_id) ;;
      ret (Redirect "dashboard")
  end.

(** The request [send_telegram_message] builds for a text. *)
Definition telegram_request (text : string) : request :=
  mkRequest
    ("https://api.telegram.org/bot" ++ setting TELEGRAM_BOT_TOKEN
       ++ "/sendMessage")%string
    [("chat_id", setting TELEGRAM_CHAT_ID); ("text", text)].

(** The operations of a logged-in user that touch the [sessions] table; a
    sweep stands for one view of the dashboard at the instant [now]. *)
Inductive op : Type :=
| OpCreate (user_id : Z) (form : form_data)
| OpToggle (user_id session_id : Z)
| OpDelete (user_id session_id : Z)
| OpDeleteSubject (user_id subject_id : Z)
| OpImportJson (user_id : Z) (file : option (list item))
| OpImportCsv (user_id : Z) (file : option (list csv_row))
| OpSweep (user_id : Z) (now : datetime).

(** The world after an operation; a request that raises leaves behind what
    it had committed before. *)
Definition handle (o : op) (w : world) : world :=
  match o with
  | OpCreate u f => snd (create_session u f w)
  | OpToggle u sid => snd (toggle_session u sid w)
  | OpDelete u sid => snd (delete_session u sid w)
  | OpDeleteSubject u sj => snd (delete_subject u sj w)
  | OpImportJson u f => snd (import_json u f w)
  | OpImportCsv u f => snd (import_csv u f w)
  | OpSweep u now => snd (send_due_reminders u now w)
  end.

(** A run: every operation with the world before and after it. *)
Fixpoint run (ops : list op) (w : world) : list (op * world * world) :=
  match ops with
  | [] => []
  | o :: rest => (o, w, handle o w) :: run rest (handle o w)
  end.

End Handlers.

(** *** Vocabulary of the properties *)

(** The window test of the sweep on one selected row. *)
Definition is_due (now window_end : datetime) (r : row) : bool :=
  match strptime (row_session_date r ++ " " ++ row_session_time r)%string with
  | Ok session_dt => datetime_le now session_dt && datetime_le session_dt window_end
  | Raise _ => false
  end.

Definition due_rows (now window_end : datetime) (rows : list row) : list row :=
  filter (is_due now window_end) rows.

(** The due candidates of a sweep for [user_id] at [now] with the window
    ending at [window_end]. *)
Definition due_candidates (user_id : Z) (now window_end : datetime) (d : db)
  : list row :=
  due_rows now window_end (select_due user_id (isoformat (dt_date now)) d).

(** The rows a sweep finds due: none when the channel is not configured or
    the end of the window is past the last representable instant. *)
Definition sweep_due (token chat : option string) (user_id : Z) (now : datetime)
    (d : db) : list row :=
  if configured token chat then
    match add_minutes now REMINDER_MINUTES with
    | Ok window_end => due_candidates user_id now window_end d
    | Raise _ => []
    end
  else [].

(** Primary key of [sessions]: no id twice, every id below the next one. *)
Definition wf_db (d : db) : Prop :=
  NoDup (map id (sessions d))
  /\ Forall (fun i => i < next_session_id d) (map id (sessions d)).

Definition find_session (d : db) (sid : Z) : option session_row :=
  find (fun r => id r =? sid) (sessions d).

(** The [reminder_sent] column of session [sid], if the session exists. *)
Definition flag (d : db) (sid : Z) : option Z :=
  option_map reminder_sent (find_session d sid).

(** The flag of [sid] goes from false to true in a step. *)
Definition rise (sid : Z) (st : op * world * world) : bool :=
  let '(_, w, w') := st in
  match flag (store w) sid, flag (store w') sid with
  | Some a, Some b => (a =? 0) && negb (b =? 0)
  | _, _ => false
  end.

(** The flag of [sid] goes from true back to false in a step. *)
Definition reset (sid : Z) (st : op * world * world) : bool :=
  let '(_, w, w') := st in
  match flag (store w) sid, flag (store w') sid with
  | Some a, Some b => negb (a =? 0) && (b =? 0)
  | _, _ => false
  end.

(** What the latch is about in a session: its id and its flag. *)
Definition session_key (r : session_row) : Z * Z := (id r, reminder_sent r).

(** How the handlers other than the sweep change the [sessions] table:
    by updates that keep every id and flag, by deletions, and by insertions
    at the next id with the flag at 0. *)
Inductive evolves : db -> db -> Prop :=
| ev_refl (d : db) : evolves d d
| ev_step (d d' d'' : db) : evolves d d' -> evolves d' d'' -> evolves d d''
| ev_same (d d' : db) :
    map session_key (sessions d') = map session_key (sessions d) ->
    next_session_id d' = next_session_id d ->
    evolves d d'
| ev_delete (d d' : db) (keep : session_row -> bool) :
    sessions d' = filter keep (sessions d) ->
    next_session_id d' = next_session_id d ->
    evolves d d'
| ev_insert (d d' : db) (r : session_row) :
    sessions d' = sessions d ++ [r] ->
    id r = next_session_id d ->
    reminder_sent r = 0 ->
    next_session_id d' = next_session_id d + 1 ->
    evolves d d'.

(** Across such a change the flag of [sid] stays as it is or the session goes
    away; a session that appears does so at a fresh id with the flag at 0. *)
Definition quiet (d d' : db) (sid : Z) : Prop :=
  match flag d sid with
  | Some v => flag d' sid = Some v \/ flag d' sid = None
  | None =>
      flag d' sid = None \/ (flag d' sid = Some 0 /\ next_session_id d <= sid)
  end.

Definition store_evolves {A} (m : M A) : Prop :=
  forall w : world, evolves (store w) (store (snd (m w))).

(** The flag of [sid] can no longer rise: it is set, or the session is gone
    for good. *)
Definition settled (d : db) (sid : Z) : Prop :=
  (exists v : Z, flag d sid = Some v /\ v <> 0)
  \/ (flag d sid = None /\ sid < next_session_id d).

(** The requests sent between two worlds. *)
Definition sent_between (w w' : world) : list request :=
  skipn (List.length (outbox w)) (outbox w').


(** The sessions table with [reminder_sent] set on the given ids. *)
Definition mark_sent (ids : list Z) (l : list session_row) : list session_row :=
  map (fun r => if existsb (Z.eqb (id r)) ids then set_reminder_sent r 1 else r) l.

(** The integers an [INTEGER] column of SQLite holds: 64 bits.  Binding any
    other raises [OverflowError]. *)
Definition sqlite_int (z : Z) : bool := (- 2 ^ 63 <=? z) && (z <? 2 ^ 63).

(** The number of digits in a text. *)
Definition digit_count (s : string) : nat :=
  List.length
    (filter (fun p => match decimal p with Some _ => true | None => false end)
            (codepoints s)).

(** [sys.int_info.default_max_str_digits] *)
Definition int_max_str_digits : nat := 4300.

(** A literal [int] converts whatever the interpreter's limit on digits. *)
Definition within_digit_limit (s : string) : bool :=
  (digit_count s <=? int_max_str_digits)%nat.

End App.

Import Py Datetime Store App.

(** ** A small world to run the handlers on *)

Definition demo_token : option string := Some "123:abc".
Definition demo_chat : option string := Some "42".

(** A network on which every call times out. *)
Definition net_down : network :=
  fun _ _ => Some Timeout.

(** A network on which every call succeeds. *)
Definition net_up : network :=
  fun _ _ => None.

Definition demo_session (i : Z) (stime : string) (compl sent : Z) : session_row :=
  mkSession i 7 None "Algebra" "2024-03-05" stime 45 "High" "" compl sent.

Definition demo_db : db :=
  mkDb [demo_session 1 "10:00" 0 0;
        demo_session 2 "10:15" 0 0;
        demo_session 3 "10:15" 1 0;
        demo_session 4 "soon" 0 0;
        demo_session 5 "10:31" 0 0]
       [] 6 1.

Definition demo_world : world := mkWorld demo_db [] [].

Definition at_time (h m s us : Z) : datetime :=
  mkDatetime (mkDate 2024 3 5) h m s us.

Definition empty_world : world := mkWorld (mkDb [] [] 1 1) [] [].

(** Twenty-nine minutes before the first session of [demo_db]. *)
Definition demo_now : datetime := at_time 9 31 0 0.
Definition demo_first : session_row := demo_session 1 "10:00" 0 0.

(** A day of use: a sweep, a toggle, a creation, a second sweep, a
    deletion, an import, a later sweep. *)
Definition demo_ops : list op :=
  [OpSweep 7 demo_now; OpToggle 7 2; OpCreate 7 [("title", "Logic");
     ("session_date", "2024-03-05"); ("session_time", "10:20");
     ("duration_min", "30")];
   OpSweep 7 demo_now; OpDelete 7 1; OpImportJson 7 (Some []);
   OpSweep 7 (at_time 9 55 0 0)].

(** A form with a duration of five minutes. *)
Definition demo_form : form_data :=
  [("title", " Algebra "); ("session_date", "2024-03-05");
   ("session_time", "10:00"); ("duration_min", "5"); ("priority", "High")].

(** An uploaded JSON object with a duration of five minutes. *)
Definition short_item : item :=
  [("title", JStr "Algebra"); ("date", JStr "2024-03-05");
   ("time", JStr "10:00"); ("duration_min", JInt 5)].

(** An uploaded CSV record with a duration of minus three minutes. *)
Definition short_csv_row : csv_row :=
  [("title", "Algebra"); ("date", "2024-03-05"); ("time", "10:00");
   ("duration_min", "-3")].

(** A table with a session whose [completed] is neither 0 nor 1, as a CSV
    import can leave it. *)
Definition odd_world : world :=
  mkWorld (mkDb [demo_session 1 "10:00" 2 0] [] 2 1) [] [].


(** A CSV record without a title and with a duration that is no number. *)
Definition blank_csv_row : csv_row := [("title", ""); ("duration_min", "abc")].

Definition demo_day : date := mkDate 2024 3 5.

(** Two sessions at ten o'clock, the second with a full-width zero in its
    time. *)
Definition wide_world : world :=
  mkWorld (mkDb [demo_session 1 "10:00" 0 0; demo_session 2 "10:0０" 0 0] [] 3 1)
          [] [].

(** A form whose title is a no-break space. *)
Definition blank_title_form : form_data :=
  [("title", " "); ("session_date", "2024-03-05");
   ("session_time", "10:00"); ("duration_min", "30")].

(** The information separator, which [str.strip] removes and [int] does not
    accept. *)
Definition unit_separator : string := String (ascii_of_nat 31) EmptyString.

(** ** The rest of the application *)

(** [adapt_sql(sql)]: the Postgres driver takes [%s] where SQLite takes [?]. *)
Fixpoint replace_qmark (sql : string) : string :=
  match sql with
  | EmptyString => EmptyString
  | String c rest =>
      if Ascii.eqb c "?" then String "%" (String "s" (replace_qmark rest))
      else String c (replace_qmark rest)
  end.

Definition adapt_sql (USE_POSTGRES : bool) (sql : string) : string :=
  if USE_POSTGRES then replace_qmark sql else sql.

(** Number of question marks in a statement. *)
Fixpoint count_qmark (sql : string) : nat :=
  match sql with
  | EmptyString => O
  | String c rest => ((if Ascii.eqb c "?" then 1 else 0) + count_qmark rest)%nat
  end.

(** [c in s] for a character. *)
Fixpoint has_char (c : ascii) (s : string) : bool :=
  match s with
  | EmptyString => false
  | String c' rest => Ascii.eqb c' c || has_char c rest
  end.

(** The tips of the dashboard. *)
Definition tip_start_planning : string :=
  "Добавь 2–3 занятия на ближайшие дни и выбери приоритет.".
Definition tip_start_short : string :=
  "Начни с коротких сессий по 30–45 минут.".
Definition tip_low_focus : string :=
  "Фокус ниже 50% — попробуй планировать меньше, но регулярнее.".
Definition tip_long_day : string :=
  "Суммарно больше 4 часов — добавь перерывы между сессиями.".
Definition tip_many_high : string :=
  "Много высоких приоритетов — выдели 1–2 главные задачи.".
Definition tip_balanced : string :=
  "Хороший баланс! Можешь добавить цель недели для мотивации.".

(** [generate_tips(sessions)].  The focus rate
    [round((completed / total) * 100)] is computed in floating point; it is
    taken as the function [focus_rate_of completed total]. *)
Definition generate_tips (focus_rate_of : Z -> Z -> Z) (rows : list session_row)
  : list string :=
  match rows with
  | [] => [tip_start_planning; tip_start_short]
  | _ :: _ =>
      let compl := Z.of_nat (List.length (filter (fun s => negb (completed s =? 0)) rows)) in
      let total := Z.of_nat (List.length rows) in
      let minutes := fold_right Z.add 0 (map duration_min rows) in
      let focus_rate := if total =? 0 then 0 else focus_rate_of compl total in
      let priorities := filter truthy (map priority rows) in
      let tips :=
        (if focus_rate <? 50 then [tip_low_focus] else [])
        ++ (if 240 <? minutes then [tip_long_day] else [])
        ++ (if (3 <=? List.length (filter (String.eqb "Высокий") priorities))%nat
            then [tip_many_high] else []) in
      match tips with
      | [] => [tip_balanced]
      | _ :: _ => tips
      end
  end.

(** One row of the export query: a session with the name of its subject. *)
Record export_row : Type := mkExportRow {
  er_session : session_row;
  er_subject_name : option string
}.

(** [LEFT JOIN subjects ON subjects.id = sessions.subject_id]: the names of
    the matching subjects, or one [NULL] when there is none. *)
Definition joined_subject_names (d : db) (r : session_row) : list (option string) :=
  match subject_id r with
  | None => [None]
  | Some sj =>
      match filter (fun s => subj_id s =? sj) (subjects d) with
      | [] => [None]
      | s :: l => map (fun x => Some (name x)) (s :: l)
      end
  end.

(** [SELECT sessions.*, subjects.name AS subject_name FROM sessions LEFT JOIN
    subjects ... WHERE sessions.user_id = ?], before the ordering. *)
Definition select_export (uid : Z) (d : db) : list export_row :=
  flat_map (fun r => map (mkExportRow r) (joined_subject_names d r))
           (filter (fun r => user_id r =? uid) (sessions d)).

(** A text column that may be [NULL], as JSON. *)
Definition json_of_option (o : option string) : json :=
  match o with
  | Some s => JStr s
  | None => JNull
  end.

(** One object of the JSON export. *)
Definition export_item (e : export_row) : item :=
  let r := er_session e in
  [("title", JStr (title r));
   ("date", JStr (session_date r));
   ("time", JStr (session_time r));
   ("duration_min", JInt (duration_min r));
   ("priority", JStr (priority r));
   ("notes", JStr (notes r));
   ("completed", JInt (completed r));
   ("subject", json_of_option (er_subject_name e))].

Definition csv_header : list string :=
  ["title"; "date"; "time"; "duration_min"; "priority"; "notes"; "completed";
   "subject"].

(** The fields of one line of the CSV export. *)
Definition export_csv_fields (e : export_row) : list string :=
  let r := er_session e in
  [title r; session_date r; session_time r; str_of_int (duration_min r);
   priority r; or_default (Some (notes r)) ""; str_of_int (completed r);
   or_default (er_subject_name e) ""].

(** The record [csv.DictReader] builds from a line under the header. *)
Definition csv_record (fields : list string) : csv_row :=
  combine csv_header fields.

Section ExportQueries.

(** [ORDER BY session_date, session_time]: the order depends on the
    collation of the database and is open among equal keys; all that is
    used is that ordering rearranges the rows. *)
Variable order_by : list export_row -> list export_row.

(** [GET /export/json]: the payload that is serialised, read from the
    store in one query. *)
Definition export_json (user_id : Z) (d : db) : list item :=
  map export_item (order_by (select_export user_id d)).

(** [GET /export/csv]: the header and the lines that are written. *)
Definition export_csv (user_id : Z) (d : db) : list (list string) :=
  csv_header :: map export_csv_fields (order_by (select_export user_id d)).

End ExportQueries.

(** What [resolve_subject] returns and leaves in the store: the id of the
    first subject of the user with that name, or of a new one at the next
    id; nothing for a blank name. *)
Definition resolved_subject (uid : Z) (nm : string) (d : db) : option Z * db :=
  if truthy nm then
    match select_subject_id uid nm d with
    | Some sid => (Some sid, d)
    | None => (Some (next_subject_id d), insert_subject uid nm "#e7dfd5" d)
    end
  else (None, d).


(** A computation that only adds sessions of [uid], unmarked, after the
    existing ones, and sends nothing. *)
Definition appends_for (uid : Z) {A} (m : M A) : Prop :=
  forall w : world,
    outbox (snd (m w)) = outbox w
    /\ exists new : list session_row,
         sessions (store (snd (m w))) = sessions (store w) ++ new
         /\ Forall (fun r => user_id r = uid /\ reminder_sent r = 0) new.

(** A numeric CSV field that is absent, blank or an integer literal. *)
Definition csv_number_converts (r : csv_row) (k : string) : bool :=
  match lookup k r with
  | Some s =>
      if truthy s then
        match int_of_str s with
        | Ok _ => true
        | Raise _ => false
        end
      else true
  | None => true
  end.

(** A numeric CSV field [int] converts: absent, blank, or an integer
    literal of no more digits than the interpreter reads. *)
Definition csv_number_ok (r : csv_row) (k : string) : bool :=
  csv_number_converts r k
  && match lookup k r with
     | Some s => within_digit_limit s
     | None => true
     end.

(** The number a CSV field stands for; [default] when it is absent or
    blank. *)
Definition csv_number (r : csv_row) (k : string) (default : Z) : Z :=
  match lookup k r with
  | Some s =>
      if truthy s then
        match int_of_str s with
        | Ok n => n
        | Raise _ => default
        end
      else default
  | None => default
  end.

(** A CSV record that lacks a title, a date or a time. *)
Definition csv_incomplete (r : csv_row) : bool :=
  negb (truthy (strip (or_default (lookup "title" r) "")))
  || negb (truthy (strip (or_default (lookup "date" r) "")))
  || negb (truthy (strip (or_default (lookup "time" r) ""))).

(** A CSV record the import takes: its numbers convert and, when the record
    is complete, the store can hold them. *)
Definition csv_row_imports (r : csv_row) : bool :=
  csv_number_ok r "duration_min" && csv_number_ok r "completed"
  && (csv_incomplete r
      || sqlite_int (csv_number r "duration_min" 30)
         && sqlite_int (csv_number r "completed" 0)).

(** The number a run of decimal digits stands for, read after [acc]. *)
Fixpoint uint_value (acc : Z) (d : Decimal.uint) : Z :=
  match d with
  | Decimal.Nil => acc
  | Decimal.D0 l => uint_value (acc * 10 + 0) l
  | Decimal.D1 l => uint_value (acc * 10 + 1) l
  | Decimal.D2 l => uint_value (acc * 10 + 2) l
  | Decimal.D3 l => uint_value (acc * 10 + 3) l
  | Decimal.D4 l => uint_value (acc * 10 + 4) l
  | Decimal.D5 l => uint_value (acc * 10 + 5) l
  | Decimal.D6 l => uint_value (acc * 10 + 6) l
  | Decimal.D7 l => uint_value (acc * 10 + 7) l
  | Decimal.D8 l => uint_value (acc * 10 + 8) l
  | Decimal.D9 l => uint_value (acc * 10 + 9) l
  end.

(** The day before; leaving year 1 raises [OverflowError]. *)
Definition prev_day (d : date) : result date :=
  if 1 <? day d then Ok (mkDate (year d) (month d) (day d - 1))
  else if 1 <? month d then
    Ok (mkDate (year d) (month d - 1) (days_in_month (year d) (month d - 1)))
  else if MINYEAR <? year d then Ok (mkDate (year d - 1) 12 31)
  else Raise OverflowError.

(** [d + timedelta(days=n)] and [d - timedelta(days=n)], a day at a time. *)
Fixpoint add_days (d : date) (n : nat) : result date :=
  match n with
  | O => Ok d
  | S k => rbind (next_day d) (fun d' => add_days d' k)
  end.

Fixpoint sub_days (d : date) (n : nat) : result date :=
  match n with
  | O => Ok d
  | S k => rbind (prev_day d) (fun d' => sub_days d' k)
  end.

(** [datetime.strptime(s, "%Y-%m-%d").date()] *)
Definition re_date_format : matcher (Z * Z * Z) :=
  m_bind re_Y (fun y =>
  m_bind (m_lit "-") (fun _ =>
  m_bind re_m (fun mo =>
  m_bind (m_lit "-") (fun _ =>
  m_bind re_d (fun d =>
  m_ret (y, mo, d)))))).

Definition strptime_date (s : string) : result date :=
  match re_date_format (codepoints s) with
  | [] => Raise ValueError
  | ((y, mo, d), rest) :: _ =>
      match rest with
      | _ :: _ => Raise ValueError
      | [] =>
          if valid_date (mkDate y mo d) then Ok (mkDate y mo d)
          else Raise ValueError
      end
  end.

(** One row of the calendar query: a session with the name and the colour
    of its subject. *)
Record calendar_row : Type := mkCalendarRow {
  cr_session : session_row;
  cr_subject_name : option string;
  cr_subject_color : option string
}.

(** One entry of [days]. *)
Record calendar_day : Type := mkCalendarDay {
  cd_date : date;
  cd_sessions : list calendar_row
}.

Definition joined_subjects (d : db) (r : session_row)
  : list (option string * option string) :=
  match subject_id r with
  | None => [(None, None)]
  | Some sj =>
      match filter (fun s => subj_id s =? sj) (subjects d) with
      | [] => [(None, None)]
      | s :: l => map (fun x => (Some (name x), Some (color x))) (s :: l)
      end
  end.

(** The date the calendar is centred on: the [date] argument when it is
    there and parses, today otherwise. *)
Definition calendar_selected (selected : option string) (today : date) : date :=
  match selected with
  | Some s =>
      if truthy s then
        match strptime_date s with
        | Ok x => x
        | Raise _ => today                  (* [strptime] raises ValueError only *)
        end
      else today
  | None => today
  end.

Section Calendar.

(** [a <= b] on text as the database compares it, and the row order it
    returns; both depend on the collation. *)
Variable text_le : string -> string -> bool.
Variable order_rows : list calendar_row -> list calendar_row.

(** [SELECT sessions.*, subjects.name, subjects.color FROM sessions LEFT JOIN
    subjects ... WHERE session_date BETWEEN ? AND ? AND sessions.user_id = ?
    ORDER BY session_date, session_time] *)
Definition select_calendar (first last : string) (uid : Z) (d : db)
  : list calendar_row :=
  order_rows
    (flat_map (fun r => map (fun nc => mkCalendarRow r (fst nc) (snd nc))
                            (joined_subjects d r))
              (filter (fun r => text_le first (session_date r)
                                && text_le (session_date r) last
                                && (user_id r =? uid))
                      (sessions d))).

(** The loop [for i in range(7)], over the offsets still to do. *)
Fixpoint calendar_days (start : date) (rows : list calendar_row) (offsets : list nat)
  : result (list calendar_day) :=
  match offsets with
  | [] => Ok []
  | i :: rest =>
      rbind (add_days start i) (fun day =>
      rbind (calendar_days start rows rest) (fun days =>
      Ok (mkCalendarDay day
            (filter (fun r => String.eqb (session_date (cr_session r))
                                         (isoformat day)) rows)
          :: days)))
  end.

(** [GET /calendar]: the [days] and the [selected_date] handed to the
    template; [selected] is the [date] argument of the request and [today]
    what [date.today()] returns. *)
Definition calendar (selected : option string) (today : date) (uid : Z) (d : db)
  : result (list calendar_day * date) :=
  let selected_date := calendar_selected selected today in
  rbind (sub_days selected_date 3) (fun start =>
  rbind (add_days selected_date 3) (fun last =>
  let rows := select_calendar (isoformat start) (isoformat last) uid d in
  rbind (calendar_days start rows (seq 0 7)) (fun days =>
  Ok (days, selected_date)))).

End Calendar.

(** [POST /subjects/create] for the logged-in user. *)
Definition create_subject (user_id : Z) (form : form_data) : M response :=
  let nm := strip (form_get form "name" "") in
  let col := strip (form_get form "color" "#e7dfd5") in
  if negb (truthy nm) then ret (Redirect "subjects")
  else
    execute INSERT_subject (insert_subject user_id nm col) ;;
    ret (Redirect "subjects").




(** The time of day as the form's time field sends it. *)
Definition hhmm (h mi : Z) : string := (zfill 2 h ++ ":" ++ zfill 2 mi)%string.



(** ** Properties *)

(** *** The runtime pieces *)

Lemma exn_of_failure_is_Exception (f : net_failure) :
  is_Exception (exn_of_failure f) = true.
Proof. destruct f; reflexivity. Qed.

Lemma strptime_raises_ValueError (s : string) (e : exn) :
  strptime s = Raise e -> e = ValueError.
Proof.
  unfold strptime.
  destruct (re_format (codepoints s)) as [|[[[[[y mo] d] h] mi] rest] l];
    [congruence|].
  destruct rest; [|congruence].
  destruct (valid_date _); congruence.
Qed.

Lemma existsb_app_single (x : Z) (l : list Z) (y : Z) :
  existsb (Z.eqb x) (l ++ [y]) = existsb (Z.eqb x) l || (x =? y).
Proof. rewrite existsb_app. simpl. now rewrite orb_false_r. Qed.

Lemma existsb_eqb_In (x : Z) (l : list Z) :
  existsb (Z.eqb x) l = true <-> In x l.
Proof.
  rewrite existsb_exists. split.
  - intros (y & Hy & E). apply Z.eqb_eq in E. now subst.
  - intros H. exists x. split; [assumption|apply Z.eqb_refl].
Qed.

(** *** Order of instants *)










(** *** The store *)

Lemma with_sessions_same (d : db) : with_sessions d (sessions d) = d.
Proof. now destruct d. Qed.

Lemma mark_sent_nil (l : list session_row) : mark_sent [] l = l.
Proof. unfold mark_sent. simpl. apply map_id. Qed.

Lemma mark_sent_snoc (ids : list Z) (sid : Z) (l : list session_row) :
  map (fun r => if id r =? sid then set_reminder_sent r 1 else r) (mark_sent ids l)
  = mark_sent (ids ++ [sid]) l.
Proof.
  unfold mark_sent. rewrite map_map. apply map_ext. intros r.
  rewrite existsb_app_single.
  destruct (existsb (Z.eqb (id r)) ids); simpl.
  - now destruct (id r =? sid).
  - reflexivity.
Qed.

(** The batch of updates as one pass over the table. *)
Lemma fold_update_reminder_sent (ids : list Z) (d : db) :
  fold_left (fun d p => update_reminder_sent p d) ids d
  = with_sessions d (mark_sent ids (sessions d)).
Proof.
  induction ids as [|sid ids IH] using rev_ind.
  - simpl. now rewrite mark_sent_nil, with_sessions_same.
  - rewrite fold_left_app. simpl. rewrite IH.
    unfold update_reminder_sent, with_sessions. simpl.
    now rewrite mark_sent_snoc.
Qed.

(** A selected row comes from a session that satisfies the [WHERE] clause. *)
Lemma select_due_In (uid : Z) (today : string) (d : db) (r : row) :
  In r (select_due uid today d) <->
  exists s, In s (sessions d) /\ select_columns s = r /\ due_where uid today s = true.
Proof.
  unfold select_due. rewrite in_map_iff. split.
  - intros (s & E & Hs). apply filter_In in Hs. now exists s.
  - intros (s & Hs & E & Hd). exists s. split; [assumption|].
    apply filter_In. now split.
Qed.

Lemma due_where_spec (uid : Z) (today : string) (s : session_row) :
  due_where uid today s = true <->
  user_id s = uid /\ session_date s = today /\ completed s = 0 /\ reminder_sent s = 0.
Proof.
  unfold due_where. rewrite !andb_true_iff, !Z.eqb_eq, String.eqb_eq. tauto.
Qed.

(** With a primary key, a row is determined by its id. *)
Lemma id_unique (l : list session_row) (a b : session_row) :
  NoDup (map id l) -> In a l -> In b l -> id a = id b -> a = b.
Proof.
  induction l as [|x l IH]; simpl; intros Hnd Ha Hb E; [contradiction|].
  inversion Hnd as [|? ? Hx Hl]; subst.
  destruct Ha as [<-|Ha], Hb as [<-|Hb].
  - reflexivity.
  - exfalso. apply Hx. rewrite E. now apply in_map.
  - exfalso. apply Hx. rewrite <- E. now apply in_map.
  - now apply IH.
Qed.

(** Under the primary key, the id of a session is among the ids of the due
    rows exactly when its own selected row is due. *)
Lemma due_id_iff (uid : Z) (now window_end : datetime) (d : db) (s : session_row) :
  NoDup (map id (sessions d)) ->
  In s (sessions d) ->
  In (id s) (map row_id (due_candidates uid now window_end d)) <->
  In (select_columns s) (due_candidates uid now window_end d).
Proof.
  intros Hnd Hs. unfold due_candidates, due_rows. split.
  - rewrite in_map_iff. intros (r & E & Hr).
    apply filter_In in Hr. destruct Hr as [Hr Hdue].
    pose proof Hr as Hr'. apply select_due_In in Hr'.
    destruct Hr' as (s' & Hs' & <- & Hw).
    simpl in E. rewrite (id_unique _ s s' Hnd Hs Hs' (eq_sym E)).
    apply filter_In. now split.
  - intros H. apply in_map_iff. now exists (select_columns s).
Qed.

Lemma due_candidates_In (uid : Z) (now window_end : datetime) (d : db) (s : session_row) :
  In s (sessions d) ->
  In (select_columns s) (due_candidates uid now window_end d) <->
  (exists s', In s' (sessions d) /\ select_columns s' = select_columns s
              /\ due_where uid (isoformat (dt_date now)) s' = true)
  /\ is_due now window_end (select_columns s) = true.
Proof.
  intros Hs. unfold due_candidates, due_rows.
  now rewrite filter_In, select_due_In.
Qed.


Lemma mark_sent_ids (ids : list Z) (l : list session_row) :
  map id (mark_sent ids l) = map id l.
Proof.
  unfold mark_sent. rewrite map_map. apply map_ext. intros r.
  now destruct (existsb _ _).
Qed.

Lemma find_session_In (l : list session_row) (s : session_row) :
  NoDup (map id l) -> In s l -> find (fun r => id r =? id s) l = Some s.
Proof.
  induction l as [|x l IH]; simpl; intros Hnd Hs; [contradiction|].
  inversion Hnd as [|? ? Hx Hl]; subst.
  destruct (id x =? id s) eqn:E.
  - apply Z.eqb_eq in E. destruct Hs as [->|Hs]; [reflexivity|].
    exfalso. apply Hx. rewrite E. now apply in_map.
  - destruct Hs as [->|Hs]; [now rewrite Z.eqb_refl in E|]. now apply IH.
Qed.



Lemma skipn_length_app {A} (l x : list A) : skipn (List.length l) (l ++ x) = x.
Proof. induction l; simpl; auto. Qed.

(** Selecting rows keeps their keys distinct. *)
Lemma distinct_keys_filter {R : Type} (key : R -> Z) (keep : R -> bool)
    (rows : list R) (Hkey : NoDup (map key rows)) :
  NoDup (map key (filter keep rows)).
Proof.
  induction rows as [|x rows IH]; simpl in *; [constructor|].
  inversion Hkey as [|? ? Hx Hrest]; subst.
  destruct (keep x); simpl; [|now apply IH].
  constructor; [|now apply IH].
  intros Hin. apply Hx. apply in_map_iff in Hin.
  destruct Hin as (y & E & Hy). apply filter_In in Hy.
  apply in_map_iff. exists y. tauto.
Qed.



Lemma append_assoc (a b c : string) : ((a ++ b) ++ c = a ++ (b ++ c))%string.
Proof. induction a; simpl; congruence. Qed.

Lemma append_nil_r (a : string) : (a ++ "" = a)%string.
Proof. induction a; simpl; congruence. Qed.




Section Sweep.

Variable TELEGRAM_BOT_TOKEN : option string.
Variable TELEGRAM_CHAT_ID : option string.

Local Abbreviation configured := (configured TELEGRAM_BOT_TOKEN TELEGRAM_CHAT_ID).
Local Abbreviation send_telegram_message :=
  (send_telegram_message TELEGRAM_BOT_TOKEN TELEGRAM_CHAT_ID).
Local Abbreviation telegram_request :=
  (telegram_request TELEGRAM_BOT_TOKEN TELEGRAM_CHAT_ID).
Local Abbreviation reminder_loop :=
  (reminder_loop TELEGRAM_BOT_TOKEN TELEGRAM_CHAT_ID).
Local Abbreviation send_due_reminders :=
  (send_due_reminders TELEGRAM_BOT_TOKEN TELEGRAM_CHAT_ID).
Local Abbreviation create_session :=
  (create_session TELEGRAM_BOT_TOKEN TELEGRAM_CHAT_ID).

(** What one dispatch does to the world. *)
Lemma send_telegram_message_effect (urlopen : network) (text : string) (w : world) :
  send_telegram_message urlopen (Utf8 text) w =
  (Ok tt,
   if configured
   then mkWorld (store w) (db_log w) (outbox w ++ [telegram_request text])
   else w).
Proof.
  unfold App.send_telegram_message, App.configured.
  destruct (unset TELEGRAM_BOT_TOKEN || unset TELEGRAM_CHAT_ID); simpl.
  - reflexivity.
  - unfold bind, lift, urlencode, try_except, urlopen_call, App.telegram_request.
    cbn [encode_utf8 rbind].
    destruct (urlopen _ _) as [f|]; [|reflexivity].
    now rewrite exn_of_failure_is_Exception.
Qed.

Lemma configured_unset :
  configured = true ->
  unset TELEGRAM_BOT_TOKEN || unset TELEGRAM_CHAT_ID = false.
Proof. unfold App.configured. now destruct (_ || _). Qed.

(** The loop sends one request for every due row, in order, and appends
    the ids of the due rows, in the same order. *)
Lemma reminder_loop_effect (urlopen : network) (now window_end : datetime) (rows : list row) :
  configured = true ->
  forall (to_mark : list Z) (w : world),
    reminder_loop urlopen now window_end rows to_mark w =
    (Ok (to_mark ++ map row_id (due_rows now window_end rows)),
     mkWorld (store w) (db_log w)
       (outbox w ++ map (fun r => telegram_request (reminder_text r))
                        (due_rows now window_end rows))).
Proof.
  intros Hc. induction rows as [|r rows IH]; intros to_mark w.
  - simpl. unfold ret. rewrite !app_nil_r. now destruct w.
  - simpl. unfold is_due.
    destruct (strptime _) as [dt|e] eqn:Hp.
    + destruct (datetime_le now dt && datetime_le dt window_end).
      * unfold bind. rewrite send_telegram_message_effect, Hc, IH. simpl.
        now rewrite <- !app_assoc.
      * apply IH.
    + apply strptime_raises_ValueError in Hp. subst e. simpl. apply IH.
Qed.

(** The whole sweep, when the channel is configured and the window end is a
    representable instant. *)
Lemma send_due_reminders_effect (urlopen : network) (user_id : Z) (now window_end : datetime) (w : world) :
  configured = true ->
  add_minutes now REMINDER_MINUTES = Ok window_end ->
  let due := due_candidates user_id now window_end (store w) in
  send_due_reminders urlopen user_id now w =
  (Ok tt,
   mkWorld (with_sessions (store w) (mark_sent (map row_id due) (sessions (store w))))
           (db_log w ++ Query SELECT_due_sessions ::
              match due with
              | [] => []
              | _ :: _ => [ExecuteMany UPDATE_reminder_sent (map row_id due)]
              end)
           (outbox w ++ map (fun r => telegram_request (reminder_text r)) due)).
Proof.
  intros Hc Hw due. unfold due_candidates in due.
  unfold App.send_due_reminders. rewrite (configured_unset Hc).
  unfold bind at 1. unfold lift. rewrite Hw.
  unfold bind at 1. unfold query.
  unfold bind at 1. rewrite (reminder_loop_effect _ _ _ _ Hc).
  cbn [store db_log outbox app]. fold due.
  destruct due as [|r0 due0].
  - unfold ret. simpl.
    now rewrite mark_sent_nil, with_sessions_same, app_nil_r.
  - cbn [map]. unfold execute_many. cbn [store db_log outbox].
    rewrite fold_update_reminder_sent.
    now rewrite <- app_assoc.
Qed.

(** Without the token or the chat id the sweep does nothing. *)
Lemma send_due_reminders_unconfigured (urlopen : network) (user_id : Z)
    (now : datetime) (w : world) :
  unset TELEGRAM_BOT_TOKEN || unset TELEGRAM_CHAT_ID = true ->
  send_due_reminders urlopen user_id now w = (Ok tt, w).
Proof. intros H. unfold App.send_due_reminders. now rewrite H. Qed.

(** C4: when the bot token or the chat id is absent, the sweep returns at
    once: the result is normal and the world (the sessions with their
    [reminder_sent] flags, the log of store accesses, the requests sent) is
    the one it started from. *)
Theorem sweep_unconfigured_is_noop (urlopen : network) (user_id : Z) (now : datetime) (w : world) :
  unset TELEGRAM_BOT_TOKEN = true \/ unset TELEGRAM_CHAT_ID = true ->
  send_due_reminders urlopen user_id now w = (Ok tt, w).
Proof.
  intros H. apply send_due_reminders_unconfigured.
  apply orb_true_iff. exact H.
Qed.









End Sweep.

(** *** The flag as a latch *)

Lemma find_session_Some (d : db) (sid : Z) (s : session_row) :
  find_session d sid = Some s -> In s (sessions d) /\ id s = sid.
Proof.
  unfold find_session. intros H. apply find_some in H.
  destruct H as [H E]. apply Z.eqb_eq in E. auto.
Qed.

Lemma find_session_unique (d : db) (sid : Z) (s : session_row) :
  NoDup (map id (sessions d)) -> In s (sessions d) -> id s = sid ->
  find_session d sid = Some s.
Proof. intros Hnd Hs <-. unfold find_session. now apply find_session_In. Qed.

Lemma flag_Some_lt (d : db) (sid v : Z) :
  wf_db d -> flag d sid = Some v -> sid < next_session_id d.
Proof.
  intros [_ Hlt] H. unfold flag in H.
  destruct (find_session d sid) as [s|] eqn:E; [|discriminate].
  apply find_session_Some in E. destruct E as [Hin <-].
  rewrite Forall_forall in Hlt. apply Hlt. now apply in_map.
Qed.

(** The flag depends on the ids and flags of the table only. *)
Lemma flag_keys (d : db) (sid : Z) :
  flag d sid
  = option_map snd (find (fun k => fst k =? sid) (map session_key (sessions d))).
Proof.
  unfold flag, find_session.
  induction (sessions d) as [|r l IH]; simpl; [reflexivity|].
  destruct (id r =? sid); simpl; auto.
Qed.

Lemma ids_keys (l : list session_row) :
  map id l = map fst (map session_key l).
Proof. now rewrite map_map. Qed.

Lemma flag_after_filter (d d' : db) (keep : session_row -> bool) (sid z : Z) :
  NoDup (map id (sessions d)) ->
  sessions d' = filter keep (sessions d) ->
  flag d' sid = Some z -> flag d sid = Some z.
Proof.
  intros Hnd Hf H. unfold flag in *.
  destruct (find_session d' sid) as [s|] eqn:E; [|discriminate].
  apply find_session_Some in E. destruct E as [Hin Hid].
  rewrite Hf in Hin. apply filter_In in Hin. destruct Hin as [Hin _].
  now rewrite (find_session_unique d sid s Hnd Hin Hid).
Qed.

Lemma find_snoc {A} (f : A -> bool) (l : list A) (x : A) :
  find f (l ++ [x])
  = match find f l with
    | Some y => Some y
    | None => if f x then Some x else None
    end.
Proof.
  induction l as [|y l IH]; simpl; [reflexivity|]. now destruct (f y).
Qed.

Lemma quiet_refl (d : db) (sid : Z) : quiet d d sid.
Proof. unfold quiet. destruct (flag d sid); auto. Qed.

(** Updates, deletions and insertions keep the primary key and leave every
    flag alone. *)
Lemma evolves_quiet (d d' : db) :
  evolves d d' ->
  wf_db d ->
  wf_db d' /\ next_session_id d <= next_session_id d'
  /\ forall sid : Z, quiet d d' sid.
Proof.
  induction 1 as [d | d d' d'' H1 IH1 H2 IH2 | d d' Hk Hn | d d' keep Hf Hn
                 | d d' r Hs Hid Hr Hn]; intros Hwf.
  - repeat split; try apply Hwf; try lia. intros sid. apply quiet_refl.
  - destruct (IH1 Hwf) as (Hwf' & Hle & Hq).
    destruct (IH2 Hwf') as (Hwf'' & Hle' & Hq').
    split; [exact Hwf''|]. split; [lia|]. intros sid.
    specialize (Hq sid). specialize (Hq' sid). unfold quiet in *.
    destruct (flag d sid) as [v|] eqn:E.
    + destruct Hq as [Hq|Hq]; rewrite Hq in Hq'; [exact Hq'|].
      destruct Hq' as [Hq'|[_ Hq']]; [now right|].
      pose proof (flag_Some_lt d sid v Hwf E). lia.
    + destruct Hq as [Hq|[Hq Hfresh]]; rewrite Hq in Hq'.
      * destruct Hq' as [Hq'|[Hq' Hf']]; [now left|right]. split; [exact Hq'|lia].
      * destruct Hq' as [Hq'|Hq']; [right; now split|now left].
  - destruct Hwf as [Hnd Hlt]. split; [|split; [lia|]].
    + split.
      * now rewrite ids_keys, Hk, <- ids_keys.
      * now rewrite ids_keys, Hk, <- ids_keys, Hn.
    + intros sid. unfold quiet. rewrite (flag_keys d'), Hk, <- flag_keys.
      destruct (flag d sid); auto.
  - destruct Hwf as [Hnd Hlt]. split; [|split; [lia|]].
    + split.
      * rewrite Hf. now apply distinct_keys_filter.
      * rewrite Hf, Hn. rewrite Forall_forall in *. intros i Hi.
        apply Hlt. apply in_map_iff in Hi. destruct Hi as (s & <- & Hs).
        apply filter_In in Hs. apply in_map. tauto.
    + intros sid. unfold quiet.
      destruct (flag d' sid) as [z|] eqn:E'.
      * rewrite (flag_after_filter d d' keep sid z Hnd Hf E'). now left.
      * destruct (flag d sid); auto.
  - destruct Hwf as [Hnd Hlt]. split; [|split; [lia|]].
    + split.
      * rewrite Hs, map_app. apply NoDup_app; [exact Hnd|repeat constructor; auto|].
        intros a Ha [<-|[]]. rewrite Forall_forall in Hlt.
        apply Hlt in Ha. lia.
      * rewrite Hs, map_app, Hn. apply Forall_app. split.
        -- eapply Forall_impl; [|exact Hlt]. simpl. intros; lia.
        -- repeat constructor. lia.
    + intros sid. unfold quiet, flag, find_session. rewrite Hs, find_snoc.
      destruct (find (fun r0 => id r0 =? sid) (sessions d)) as [s|]; simpl; [now left|].
      destruct (id r =? sid) eqn:E; simpl; [|now left].
      apply Z.eqb_eq in E. right. split; [now rewrite Hr|lia].
Qed.

(** Building blocks of the handlers. *)

Lemma se_ret {A} (a : A) : store_evolves (ret a).
Proof. intros w. apply ev_refl. Qed.

Lemma se_raise {A} (e : exn) : store_evolves (@raise A e).
Proof. intros w. apply ev_refl. Qed.

Lemma se_lift {A} (r : result A) : store_evolves (lift r).
Proof. intros w. apply ev_refl. Qed.

Lemma se_bind {A B} (m : M A) (k : A -> M B) :
  store_evolves m -> (forall a, store_evolves (k a)) -> store_evolves (bind m k).
Proof.
  intros Hm Hk w. unfold bind. specialize (Hm w).
  destruct (m w) as [[a|e] w'] eqn:E; simpl in *.
  - eapply ev_step; [exact Hm|]. apply Hk.
  - exact Hm.
Qed.

Lemma se_query {A} (q : sql) (select : db -> A) : store_evolves (query q select).
Proof. intros w. apply ev_refl. Qed.

Lemma se_execute (q : sql) (update : db -> db) :
  (forall d, evolves d (update d)) -> store_evolves (execute q update).
Proof. intros H w. apply H. Qed.

Lemma se_for_each {X} (xs : list X) (body : X -> M unit) :
  (forall x, store_evolves (body x)) -> store_evolves (for_each xs body).
Proof.
  intros H. induction xs as [|x xs IH]; simpl.
  - apply se_ret.
  - apply se_bind; [apply H|intros _; exact IH].
Qed.

Lemma se_send (token chat : option string) (urlopen : network) (text : str) :
  store_evolves (send_telegram_message token chat urlopen text).
Proof.
  intros w. unfold send_telegram_message.
  destruct (_ || _); [apply ev_refl|].
  unfold bind, lift, urlencode.
  destruct (encode_utf8 text); cbn [rbind]; [|apply ev_refl].
  unfold try_except, urlopen_call. destruct (urlopen _ _) as [f|]; [|apply ev_refl].
  rewrite exn_of_failure_is_Exception. apply ev_refl.
Qed.

(** The statements. *)

Lemma insert_session_evolves (uid : Z) (subj : option Z) (ttl sdate stime : string)
    (minutes : Z) (prio nts : string) (compl : Z) (d : db) :
  evolves d (insert_session uid subj ttl sdate stime minutes prio nts compl d).
Proof. eapply ev_insert; reflexivity. Qed.

Lemma update_toggle_evolves (sid uid : Z) (d : db) :
  evolves d (update_toggle sid uid d).
Proof.
  apply ev_same; [|reflexivity]. simpl. rewrite map_map. apply map_ext.
  intros r. now destruct (_ && _).
Qed.

Lemma delete_session_row_evolves (sid uid : Z) (d : db) :
  evolves d (delete_session_row sid uid d).
Proof. eapply ev_delete; reflexivity. Qed.

Lemma update_clear_subject_evolves (subj uid : Z) (d : db) :
  evolves d (update_clear_subject subj uid d).
Proof.
  apply ev_same; [|reflexivity]. simpl. rewrite map_map. apply map_ext.
  intros r. now destruct (_ && _).
Qed.

Lemma delete_subject_row_evolves (subj uid : Z) (d : db) :
  evolves d (delete_subject_row subj uid d).
Proof. apply ev_same; reflexivity. Qed.

Lemma insert_subject_evolves (uid : Z) (nm col : string) (d : db) :
  evolves d (insert_subject uid nm col d).
Proof. apply ev_same; reflexivity. Qed.

Create HintDb handlers.

#[local] Hint Resolve se_ret se_raise se_lift se_query se_send
  insert_session_evolves update_toggle_evolves delete_session_row_evolves
  update_clear_subject_evolves delete_subject_row_evolves
  insert_subject_evolves : handlers.

Ltac handler_step :=
  first [ apply se_bind; [|intros ?]
        | apply se_execute; intros ?
        | apply se_for_each; intros ?
        | solve [auto with handlers] ].

Section Latch.

Variable TELEGRAM_BOT_TOKEN : option string.
Variable TELEGRAM_CHAT_ID : option string.
Variable urlopen : network.

Local Abbreviation handle := (handle TELEGRAM_BOT_TOKEN TELEGRAM_CHAT_ID urlopen).
Local Abbreviation run := (run TELEGRAM_BOT_TOKEN TELEGRAM_CHAT_ID urlopen).

Lemma create_session_evolves (uid : Z) (form : form_data) :
  store_evolves (create_session TELEGRAM_BOT_TOKEN TELEGRAM_CHAT_ID urlopen uid form).
Proof.
  unfold create_session.
  destruct (_ || _); [apply se_ret|].
  destruct (int_of_str _) as [n|e].
  - repeat handler_step.
  - destruct (is_ValueError e); auto with handlers.
Qed.

Lemma resolve_subject_evolves (uid : Z) (nm : string) :
  store_evolves (resolve_subject uid nm).
Proof.
  unfold resolve_subject. destruct (truthy nm); [|apply se_ret].
  apply se_bind; [apply se_query|]. intros [sid|]; [apply se_ret|].
  repeat handler_step. destruct a0; auto with handlers.
Qed.

Lemma import_json_evolves (uid : Z) (file : option (list item)) :
  store_evolves (import_json uid file).
Proof.
  unfold import_json. destruct file as [data|]; [|apply se_ret].
  apply se_bind; [|intros _; apply se_ret].
  apply se_for_each. intros i. unfold import_json_item.
  apply se_bind; [apply se_lift|]. intros minutes.
  apply se_bind; [apply resolve_subject_evolves|]. intros subj.
  repeat handler_step.
Qed.

Lemma import_csv_evolves (uid : Z) (file : option (list csv_row)) :
  store_evolves (import_csv uid file).
Proof.
  unfold import_csv. destruct file as [rows|]; [|apply se_ret].
  apply se_bind; [|intros _; apply se_ret].
  apply se_for_each. intros r. unfold import_csv_row.
  apply se_bind; [apply se_lift|]. intros minutes.
  apply se_bind; [apply se_lift|]. intros compl.
  destruct (_ || _); [apply se_ret|].
  apply se_bind; [apply resolve_subject_evolves|]. intros subj.
  repeat handler_step.
Qed.

Lemma toggle_session_evolves (uid sid : Z) : store_evolves (toggle_session uid sid).
Proof. unfold toggle_session. repeat handler_step. Qed.

Lemma delete_session_evolves (uid sid : Z) : store_evolves (delete_session uid sid).
Proof. unfold delete_session. repeat handler_step. Qed.

Lemma delete_subject_evolves (uid sj : Z) : store_evolves (delete_subject uid sj).
Proof. unfold delete_subject. repeat handler_step. Qed.

(** The session found under an id after a batch of marks. *)
Lemma find_session_mark_sent (d : db) (ids : list Z) (sid : Z) :
  find_session (with_sessions d (mark_sent ids (sessions d))) sid
  = option_map
      (fun r => if existsb (Z.eqb (id r)) ids then set_reminder_sent r 1 else r)
      (find_session d sid).
Proof.
  unfold find_session. simpl.
  induction (sessions d) as [|r l IH]; simpl; [reflexivity|].
  replace (id (if existsb (Z.eqb (id r)) ids then set_reminder_sent r 1 else r))
    with (id r) by now destruct (existsb _ _).
  now destruct (id r =? sid).
Qed.

Lemma wf_db_mark_sent (d : db) (ids : list Z) :
  wf_db d -> wf_db (with_sessions d (mark_sent ids (sessions d))).
Proof. unfold wf_db. simpl. now rewrite mark_sent_ids. Qed.

(** One operation, seen from one session id: the primary key survives; an
    existing flag stays, or the session goes, or the flag goes from 0 to 1
    in a sweep on the day the session is dated; a session that appears has
    a fresh id and the flag at 0. *)
Lemma handle_flag (o : op) (w : world) :
  wf_db (store w) ->
  wf_db (store (handle o w))
  /\ next_session_id (store w) <= next_session_id (store (handle o w))
  /\ forall sid : Z,
       match flag (store w) sid with
       | Some a =>
           flag (store (handle o w)) sid = None
           \/ flag (store (handle o w)) sid = Some a
           \/ (a = 0 /\ flag (store (handle o w)) sid = Some 1
               /\ exists uid now s,
                    o = OpSweep uid now
                    /\ find_session (store w) sid = Some s
                    /\ session_date s = isoformat (dt_date now))
       | None =>
           flag (store (handle o w)) sid = None
           \/ (flag (store (handle o w)) sid = Some 0
               /\ next_session_id (store w) <= sid)
       end.
Proof.
  intros Hwf.
  assert (Hquiet : evolves (store w) (store (handle o w)) ->
            wf_db (store (handle o w))
            /\ next_session_id (store w) <= next_session_id (store (handle o w))
            /\ forall sid : Z,
                 match flag (store w) sid with
                 | Some a =>
                     flag (store (handle o w)) sid = None
                     \/ flag (store (handle o w)) sid = Some a
                     \/ (a = 0 /\ flag (store (handle o w)) sid = Some 1
                         /\ exists uid now s,
                              o = OpSweep uid now
                              /\ find_session (store w) sid = Some s
                              /\ session_date s = isoformat (dt_date now))
                 | None =>
                     flag (store (handle o w)) sid = None
                     \/ (flag (store (handle o w)) sid = Some 0
                         /\ next_session_id (store w) <= sid)
                 end).
  { intros Hev. destruct (evolves_quiet _ _ Hev Hwf) as (Hwf' & Hle & Hq).
    split; [exact Hwf'|]. split; [exact Hle|]. intros sid.
    specialize (Hq sid). unfold quiet in Hq.
    destruct (flag (store w) sid); tauto. }
  destruct o as [u f|u sid0|u sid0|u sj|u f|u f|u now]; cbn [App.handle] in *.
  - apply Hquiet. apply create_session_evolves.
  - apply Hquiet. apply toggle_session_evolves.
  - apply Hquiet. apply delete_session_evolves.
  - apply Hquiet. apply delete_subject_evolves.
  - apply Hquiet. apply import_json_evolves.
  - apply Hquiet. apply import_csv_evolves.
  - clear Hquiet.
    destruct (configured TELEGRAM_BOT_TOKEN TELEGRAM_CHAT_ID) eqn:Hc.
    + destruct (add_minutes now REMINDER_MINUTES) as [window_end|e] eqn:Hw.
      * rewrite (send_due_reminders_effect _ _ urlopen u now window_end w Hc Hw).
        cbn [snd store].
        set (due := due_candidates u now window_end (store w)).
        split; [now apply wf_db_mark_sent|]. split; [simpl; lia|].
        intros sid. unfold flag. rewrite find_session_mark_sent.
        destruct (find_session (store w) sid) as [s|] eqn:E; simpl; [|now left].
        destruct (existsb (Z.eqb (id s)) (map row_id due)) eqn:Ex; [|now right; left].
        destruct (find_session_Some _ _ _ E) as [Hs Hid].
        apply existsb_eqb_In in Ex.
        apply (due_id_iff u now window_end (store w) s (proj1 Hwf) Hs) in Ex.
        apply (due_candidates_In u now window_end (store w) s Hs) in Ex.
        destruct Ex as [(s' & Hs' & Hcol & Hd) _].
        assert (s' = s) as ->.
        { apply (id_unique _ s' s (proj1 Hwf) Hs' Hs).
          now apply (f_equal row_id) in Hcol. }
        apply due_where_spec in Hd. destruct Hd as (_ & Hdate & _ & Hr).
        right. right. split; [exact Hr|]. split; [reflexivity|].
        exists u, now, s. now rewrite (proj2 (find_session_Some _ _ _ E)) in *.
      * assert (E : send_due_reminders TELEGRAM_BOT_TOKEN TELEGRAM_CHAT_ID urlopen
                      u now w = (Raise e, w)).
        { unfold send_due_reminders. rewrite (configured_unset _ _ Hc).
          unfold bind, lift. now rewrite Hw. }
        rewrite E. cbn [snd]. split; [exact Hwf|]. split; [lia|].
        intros sid. destruct (flag (store w) sid); auto.
    + rewrite send_due_reminders_unconfigured.
      * cbn [snd]. split; [exact Hwf|]. split; [lia|].
        intros sid. destruct (flag (store w) sid); auto.
      * unfold configured in Hc. now destruct (_ || _).
Qed.

Lemma handle_no_reset (o : op) (w : world) (sid : Z) :
  wf_db (store w) -> reset sid (o, w, handle o w) = false.
Proof.
  intros Hwf. destruct (handle_flag o w Hwf) as (_ & _ & H).
  specialize (H sid). unfold reset.
  destruct (flag (store w) sid) as [a|]; [|reflexivity].
  destruct H as [H|[H|(Ha & H & _)]]; rewrite H; try reflexivity.
  - now destruct (a =? 0).
  - subst a. reflexivity.
Qed.

Lemma handle_settled (o : op) (w : world) (sid : Z) :
  wf_db (store w) -> settled (store w) sid ->
  settled (store (handle o w)) sid /\ rise sid (o, w, handle o w) = false.
Proof.
  intros Hwf Hs. destruct (handle_flag o w Hwf) as (_ & Hle & H).
  specialize (H sid). unfold rise, settled in *.
  destruct Hs as [(v & Hv & Hnz)|[Hnone Hlt]].
  - rewrite Hv in *. destruct H as [H|[H|(Ha & _)]]; [| |contradiction].
    + rewrite H. split; [|reflexivity]. right. split; [reflexivity|].
      pose proof (flag_Some_lt _ _ _ Hwf Hv). lia.
    + rewrite H. split; [left; now exists v|].
      apply Z.eqb_neq in Hnz. now rewrite Hnz.
  - rewrite Hnone in *. split; [|reflexivity].
    destruct H as [H|[_ H]]; [|lia]. right. split; [exact H|lia].
Qed.

Lemma handle_rise (o : op) (w : world) (sid : Z) :
  wf_db (store w) -> rise sid (o, w, handle o w) = true ->
  settled (store (handle o w)) sid
  /\ exists uid now s,
       o = OpSweep uid now
       /\ find_session (store w) sid = Some s
       /\ session_date s = isoformat (dt_date now).
Proof.
  intros Hwf Hr. destruct (handle_flag o w Hwf) as (_ & _ & H).
  specialize (H sid). unfold rise in Hr.
  destruct (flag (store w) sid) as [a|]; [|discriminate].
  destruct H as [H|[H|(Ha & H & Hex)]]; rewrite H in Hr.
  - discriminate.
  - now destruct (a =? 0).
  - split; [|exact Hex]. left. exists 1. split; [exact H|lia].
Qed.

Lemma run_settled (ops : list op) (w : world) (sid : Z) :
  wf_db (store w) -> settled (store w) sid ->
  filter (rise sid) (run ops w) = [].
Proof.
  revert w. induction ops as [|o ops IH]; intros w Hwf Hs; [reflexivity|].
  cbn [App.run filter].
  destruct (handle_settled o w sid Hwf Hs) as [Hs' ->].
  apply IH; [|exact Hs']. now apply handle_flag.
Qed.

(** C7: along any sequence of operations, started from a table that
    respects its primary key, the [reminder_sent] flag of a session is never
    put back from non-zero to 0, goes from 0 to non-zero in at most one step,
    and does so only in a sweep whose date ([now], as ISO text) is the date
    the session is stored with; a session that appears in a step has the
    flag at 0. *)
Theorem reminder_sent_is_a_latch (ops : list op) (w0 : world) (sid : Z) :
  wf_db (store w0) ->
  let steps := run ops w0 in
  Forall (fun st => reset sid st = false) steps
  /\ (List.length (filter (rise sid) steps) <= 1)%nat
  /\ Forall (fun st : op * world * world =>
               rise sid st = true ->
               exists uid now s,
                 fst (fst st) = OpSweep uid now
                 /\ find_session (store (snd (fst st))) sid = Some s
                 /\ session_date s = isoformat (dt_date now)) steps
  /\ Forall (fun st : op * world * world =>
               flag (store (snd (fst st))) sid = None ->
               flag (store (snd st)) sid = None
               \/ flag (store (snd st)) sid = Some 0) steps.
Proof.
  intros Hwf steps. subst steps. revert w0 Hwf.
  induction ops as [|o ops IH]; intros w Hwf.
  - cbn. split; [constructor|split; [lia|split; constructor]].
  - cbn [App.run].
    assert (Hwf' : wf_db (store (handle o w))) by now apply handle_flag.
    destruct (IH _ Hwf') as (I1 & I2 & I3 & I4).
    split; [|split; [|split]].
    + constructor; [now apply handle_no_reset|exact I1].
    + cbn [filter]. destruct (rise sid (o, w, handle o w)) eqn:Hr.
      * destruct (handle_rise o w sid Hwf Hr) as [Hs _].
        rewrite (run_settled ops _ sid Hwf' Hs). simpl. lia.
      * exact I2.
    + constructor; [|exact I3]. intros Hr.
      destruct (handle_rise o w sid Hwf Hr) as [_ H]. exact H.
    + constructor; [|exact I4]. cbn [fst snd]. intros Hn.
      destruct (handle_flag o w Hwf) as (_ & _ & H). specialize (H sid).
      rewrite Hn in H. tauto.
Qed.

End Latch.

(** *** Durations *)

(** The form handler stores no duration below 10. *)
Lemma create_session_duration_at_least_10
    (token chat : option string) (urlopen : network) (uid : Z) (form : form_data)
    (w : world) (r : session_row) :
  In r (sessions (store (snd (create_session token chat urlopen uid form w)))) ->
  In r (sessions (store w)) \/ 10 <= duration_min r.
Proof.
  unfold create_session.
  destruct (_ || _); [now left|].
  destruct (int_of_str _) as [n|e].
  - unfold bind, execute. cbv beta iota.
    rewrite send_telegram_message_effect.
    destruct (configured token chat); unfold ret;
      cbn [snd store insert_session sessions]; intros H;
      apply in_app_or in H; (destruct H as [H|[<-|[]]]; [now left|right]);
      simpl; apply Z.le_max_l.
  - destruct (is_ValueError e); now left.
Qed.

(** C9 fails on the import handlers: an uploaded JSON object with
    [duration_min] 5, and an uploaded CSV record with [duration_min] -3,
    are stored with just that duration, while the same five minutes sent
    through the form are stored as 10. *)
Theorem import_stores_duration_below_10 :
  map duration_min
      (sessions (store (snd (import_json 7 (Some [short_item]) empty_world))))
  = [5]
  /\ map duration_min
         (sessions (store (snd (import_csv 7 (Some [short_csv_row]) empty_world))))
     = [-3]
  /\ map duration_min
         (sessions (store (snd (create_session demo_token demo_chat net_up 7
                                  demo_form empty_world))))
     = [10].
Proof. repeat split; vm_compute; reflexivity. Qed.

(** *** The scenarios of the specification, run *)

(** A session a quarter of an hour ahead is marked and announced once, with
    its title and its duration in the text, even when the network is down. *)
Example scenario_quarter_hour_ahead :
  let w' := snd (send_due_reminders demo_token demo_chat net_down 7
                   (at_time 9 45 0 0)
                   (mkWorld (mkDb [demo_session 1 "10:00" 0 0] [] 2 1) [] [])) in
  map reminder_sent (sessions (store w')) = [1]
  /\ map req_data (outbox w')
     = [[("chat_id", "42");
         ("text", ("Напоминание: скоро занятие" ++ nl
                   ++ "Algebra в 10:00 (45 мин)")%string)]].
Proof. split; vm_compute; reflexivity. Qed.

(** Both ends of the window count; one microsecond outside does not. *)
Example scenario_window_ends :
  let marked now :=
    map reminder_sent
        (sessions (store (snd (send_due_reminders demo_token demo_chat net_up 7 now
                                 (mkWorld (mkDb [demo_session 1 "10:00" 0 0] [] 2 1)
                                          [] []))))) in
  marked (at_time 10 0 0 0) = [1]
  /\ marked (at_time 10 0 0 1) = [0]
  /\ marked (at_time 9 30 0 0) = [1]
  /\ marked (at_time 9 29 59 999999) = [0]
  /\ marked (at_time 9 29 0 0) = [0]
  /\ marked (at_time 9 31 0 0) = [1].
Proof. repeat split; vm_compute; reflexivity. Qed.

(** The rows of [demo_db] at ten o'clock: two are due, the completed one,
    the unparsable one and the late one are not. *)
Example scenario_demo_db :
  map reminder_sent
      (sessions (store (snd (send_due_reminders demo_token demo_chat net_down 7
                               (at_time 10 0 0 0) demo_world))))
  = [1; 1; 0; 0; 0].
Proof. vm_compute. reflexivity. Qed.

(** *** Text outside ASCII *)

(** [str.strip] removes every white space of [str.isspace], among them the
    no-break space, the ideographic space and the information separators. *)
Example strip_removes_unicode_space :
  strip ("  Algebra　" ++ unit_separator) = "Algebra"
  /\ strip " " = "".
Proof. split; vm_compute; reflexivity. Qed.

(** [int] reads the decimal digits of any script and spaces of any kind
    around them, but no information separator. *)
Example int_reads_decimal_digits :
  int_of_str "١٥" = Ok 15
  /\ int_of_str "１５" = Ok 15
  /\ int_of_str " -1_5　" = Ok (-15)
  /\ int_of_str (unit_separator ++ "15") = Raise ValueError
  /\ int_of_str "1__5" = Raise ValueError.
Proof. repeat split; vm_compute; reflexivity. Qed.

(** [strptime] reads a full-width digit where the format has [\d], not where
    it has a class of ASCII digits. *)
Example strptime_reads_full_width_digits :
  strptime "2024-03-05 10:0０" = Ok (at_time 10 0 0 0)
  /\ strptime "2024-03-05 1０:00" = Ok (at_time 10 0 0 0)
  /\ strptime "2024-03-05 ０9:00" = Raise ValueError
  /\ strptime_date "２０２４-03-05" = Ok (mkDate 2024 3 5).
Proof. repeat split; vm_compute; reflexivity. Qed.

(** A session whose time is written with a full-width zero is due like the
    one written in ASCII: both are announced and marked. *)
Example scenario_full_width_time :
  let w' := snd (send_due_reminders demo_token demo_chat net_up 7
                   (at_time 9 45 0 0) wide_world) in
  map reminder_sent (sessions (store w')) = [1; 1]
  /\ List.length (outbox w') = 2%nat.
Proof. split; vm_compute; reflexivity. Qed.

(** A title of white space only is blank: nothing is stored or sent. *)
Example scenario_blank_title :
  create_session demo_token demo_chat net_up 7 blank_title_form empty_world
  = (Ok (Redirect "dashboard"), empty_world).
Proof. vm_compute. reflexivity. Qed.

(** *** The theorems at concrete inputs *)

Ltac primary_key :=
  repeat constructor; simpl; intuition discriminate.




Lemma sweep_unconfigured_is_noop_witness :
  (unset None = true \/ unset demo_chat = true)
  /\ send_due_reminders None demo_chat net_down 7 demo_now demo_world
     = (Ok tt, demo_world).
Proof.
  assert (H : unset None = true \/ unset demo_chat = true) by (left; reflexivity).
  split; [exact H|].
  exact (sweep_unconfigured_is_noop None demo_chat net_down 7 demo_now demo_world H).
Defined.




Lemma reminder_sent_is_a_latch_witness :
  wf_db (store demo_world)
  /\ (List.length
        (filter (rise 1) (run demo_token demo_chat net_down demo_ops demo_world))
      <= 1)%nat.
Proof.
  assert (H : wf_db (store demo_world)).
  { split; [primary_key|]. repeat constructor. }
  split; [exact H|].
  exact (proj1 (proj2
           (reminder_sent_is_a_latch demo_token demo_chat net_down demo_ops
              demo_world 1 H))).
Defined.


(** ** The other handlers *)

(** *** Toggle and delete *)

Lemma map_unchanged {A} (g : A -> A) (l : list A) :
  (forall x, In x l -> g x = x) -> map g l = l.
Proof.
  intros H. rewrite <- (map_id l) at 2. apply map_ext_in. exact H.
Qed.

Lemma filter_keeps_all {A} (keep : A -> bool) (l : list A) :
  (forall x, In x l -> keep x = true) -> filter keep l = l.
Proof.
  induction l as [|x l IH]; simpl; intros H; [reflexivity|].
  rewrite (H x (or_introl eq_refl)). f_equal. apply IH. intros y Hy. apply H. now right.
Qed.

Lemma set_completed_same (r : session_row) : set_completed r (completed r) = r.
Proof. now destruct r. Qed.

(** A request to toggle or to delete a session that is not the requester's
    own leaves every table as it was. *)
Theorem toggle_and_delete_need_the_owner (uid sid : Z) (w : world) :
  (forall r, In r (sessions (store w)) -> id r = sid -> user_id r <> uid) ->
  store (snd (toggle_session uid sid w)) = store w
  /\ store (snd (delete_session uid sid w)) = store w
  /\ outbox (snd (toggle_session uid sid w)) = outbox w
  /\ outbox (snd (delete_session uid sid w)) = outbox w.
Proof.
  intros H.
  assert (Hno : forall r, In r (sessions (store w)) ->
                          (id r =? sid) && (user_id r =? uid) = false).
  { intros r Hr. destruct (id r =? sid) eqn:E; [|reflexivity].
    apply Z.eqb_eq in E. simpl. apply Z.eqb_neq. now apply H. }
  repeat split.
  - cbn. unfold update_toggle. rewrite map_unchanged; [apply with_sessions_same|].
    intros r Hr. now rewrite (Hno r Hr).
  - cbn. unfold delete_session_row. rewrite filter_keeps_all; [apply with_sessions_same|].
    intros r Hr. now rewrite (Hno r Hr).
Qed.

(** Toggling a session twice puts the table back, when the session's
    [completed] was 0 or 1. *)
Theorem toggle_session_twice_restores (uid sid : Z) (w : world) :
  (forall r, In r (sessions (store w)) -> id r = sid -> user_id r = uid ->
             completed r = 0 \/ completed r = 1) ->
  store (snd (toggle_session uid sid (snd (toggle_session uid sid w)))) = store w.
Proof.
  intros H.
  set (g := fun r => if (id r =? sid) && (user_id r =? uid)
                     then set_completed r (if completed r =? 1 then 0 else 1)
                     else r).
  assert (Hl : map g (map g (sessions (store w))) = sessions (store w)).
  { rewrite map_map. apply map_unchanged. intros r Hr. unfold g.
    destruct ((id r =? sid) && (user_id r =? uid)) eqn:E.
    - cbn [id user_id set_completed completed]. rewrite E.
      apply andb_true_iff in E. destruct E as [E1 E2].
      apply Z.eqb_eq in E1, E2.
      destruct (H r Hr E1 E2) as [C|C]; rewrite C; simpl;
        rewrite <- C; destruct r; reflexivity.
    - now rewrite E. }
  cbn. unfold update_toggle. cbn [sessions with_sessions]. fold g.
  rewrite Hl. unfold with_sessions. cbn. now destruct (store w).
Qed.

(** A value of [completed] other than 0 and 1 (a CSV import can store one)
    counts as "not done": the first toggle makes it 1, the second 0. *)
Theorem toggle_session_normalises (uid sid : Z) (w : world) (s : session_row) :
  NoDup (map id (sessions (store w))) ->
  In s (sessions (store w)) -> id s = sid -> user_id s = uid ->
  completed s <> 1 ->
  let w1 := snd (toggle_session uid sid w) in
  let w2 := snd (toggle_session uid sid w1) in
  option_map completed (find_session (store w1) sid) = Some 1
  /\ option_map completed (find_session (store w2) sid) = Some 0.
Proof.
  intros Hnd Hs Hid Hu Hc w1 w2. subst sid uid.
  set (g := fun r => if (id r =? id s) && (user_id r =? user_id s)
                     then set_completed r (if completed r =? 1 then 0 else 1)
                     else r).
  assert (Hg : forall r, id (g r) = id r).
  { intros r. unfold g. now destruct (_ && _). }
  assert (Hfind : forall l,
             find (fun r => id r =? id s) (map g l)
             = option_map g (find (fun r => id r =? id s) l)).
  { intros l. induction l as [|r l IH]; simpl; [reflexivity|].
    rewrite Hg. now destruct (id r =? id s). }
  assert (Hgs : completed (g s) = 1).
  { unfold g. rewrite !Z.eqb_refl. cbn. apply Z.eqb_neq in Hc. now rewrite Hc. }
  assert (Hggs : completed (g (g s)) = 0).
  { unfold g at 1. rewrite Hg. replace (user_id (g s)) with (user_id s)
      by (unfold g; now destruct (_ && _)).
    rewrite !Z.eqb_refl. cbn. now rewrite Hgs. }
  subst w2 w1. cbn. unfold find_session, update_toggle.
  cbn [sessions with_sessions]. fold g.
  rewrite !Hfind, (find_session_In _ s Hnd Hs). cbn [option_map].
  now rewrite Hgs, Hggs.
Qed.

(** Deleting one's own session takes exactly that row out: the rows before
    and after it stay, in order, and nothing else changes. *)
Theorem delete_session_removes_exactly_that_row (uid sid : Z) (w : world)
    (s : session_row) :
  NoDup (map id (sessions (store w))) ->
  In s (sessions (store w)) -> id s = sid -> user_id s = uid ->
  let w' := snd (delete_session uid sid w) in
  (exists before after : list session_row,
      sessions (store w) = before ++ s :: after
      /\ sessions (store w') = before ++ after)
  /\ find_session (store w') sid = None
  /\ subjects (store w') = subjects (store w)
  /\ outbox w' = outbox w.
Proof.
  intros Hnd Hs Hid Hu w'. subst w'. cbn.
  destruct (in_split _ _ Hs) as (before & after & E).
  assert (Hother : forall r, In r before \/ In r after -> id r <> sid).
  { intros r Hr Heq. rewrite E, map_app in Hnd. simpl in Hnd.
    apply NoDup_remove_2 in Hnd. apply Hnd. rewrite <- map_app.
    apply in_map_iff. exists r. split; [congruence|]. apply in_or_app. exact Hr. }
  assert (Hkeep : forall l, (forall r, In r l -> id r <> sid) ->
             filter (fun r => negb ((id r =? sid) && (user_id r =? uid))) l = l).
  { intros l Hl. apply filter_keeps_all. intros r Hr.
    apply Hl in Hr. apply Z.eqb_neq in Hr. now rewrite Hr. }
  assert (Hafter : filter (fun r => negb ((id r =? sid) && (user_id r =? uid)))
                     (sessions (store w)) = before ++ after).
  { rewrite E, filter_app. simpl. rewrite Hid, Hu, !Z.eqb_refl. simpl.
    rewrite !Hkeep; auto. }
  repeat split.
  - exists before, after. split; [exact E|exact Hafter].
  - unfold find_session. cbn [sessions with_sessions delete_session_row].
    rewrite Hafter.
    destruct (find (fun r => id r =? sid) (before ++ after)) as [r|] eqn:F; [|reflexivity].
    apply find_some in F. destruct F as [Hin Hr]. apply Z.eqb_eq in Hr.
    apply in_app_or in Hin. now apply Hother in Hin.
Qed.

(** Deleting a subject removes no session: it clears the subject of the
    requester's sessions that pointed at it, touches no other column and
    no other session, and takes out the subject row only if it is the
    requester's. *)
Theorem delete_subject_detaches_sessions (uid sj : Z) (w : world) :
  let w' := snd (delete_subject uid sj w) in
  map (fun r => set_subject_id r None) (sessions (store w'))
  = map (fun r => set_subject_id r None) (sessions (store w))
  /\ (forall r', In r' (sessions (store w')) -> user_id r' = uid ->
                 subject_id r' <> Some sj)
  /\ (forall r, In r (sessions (store w)) ->
                user_id r <> uid \/ subject_id r <> Some sj ->
                In r (sessions (store w')))
  /\ (forall s, In s (subjects (store w')) <->
                In s (subjects (store w))
                /\ ~ (subj_id s = sj /\ subj_user_id s = uid))
  /\ outbox w' = outbox w.
Proof.
  intros w'. subst w'. cbn.
  assert (Hopt : forall o, option_Z_eqb o sj = true <-> o = Some sj).
  { intros [x|]; simpl; [|split; discriminate].
    rewrite Z.eqb_eq. split; congruence. }
  split; [|split; [|split; [|split; [|reflexivity]]]].
  - rewrite map_map. apply map_ext. intros r.
    destruct (option_Z_eqb (subject_id r) sj && (user_id r =? uid)); reflexivity.
  - intros r' Hin Hu Hsj. apply in_map_iff in Hin. destruct Hin as (r & E & Hr).
    destruct (option_Z_eqb (subject_id r) sj && (user_id r =? uid)) eqn:C; subst r'.
    + discriminate.
    + apply andb_false_iff in C. destruct C as [C|C].
      * apply Hopt in Hsj. congruence.
      * apply Z.eqb_neq in C. contradiction.
  - intros r Hr Hcase. apply in_map_iff. exists r. split; [|exact Hr].
    destruct (option_Z_eqb (subject_id r) sj && (user_id r =? uid)) eqn:C;
      [|reflexivity].
    apply andb_true_iff in C. destruct C as [C1 C2].
    apply Hopt in C1. apply Z.eqb_eq in C2. tauto.
  - intros s. rewrite filter_In. split.
    + intros [Hin H]. split; [exact Hin|]. intros [E1 E2].
      rewrite E1, E2, !Z.eqb_refl in H. discriminate.
    + intros [Hin Hnot]. split; [exact Hin|].
      destruct ((subj_id s =? sj) && (subj_user_id s =? uid)) eqn:C; [|reflexivity].
      apply andb_true_iff in C. rewrite !Z.eqb_eq in C. tauto.
Qed.

Lemma int_of_str_raises_ValueError (s : string) (e : exn) :
  int_of_str s = Raise e -> e = ValueError.
Proof.
  unfold int_of_str.
  destruct (ascii_form (codepoints s)) as [a|]; [|congruence].
  destruct (match c_rstrip (c_lstrip a) with
            | String "-" t => (true, t)
            | String "+" t => (false, t)
            | _ => (false, c_rstrip (c_lstrip a))
            end) as [neg ds].
  destruct (digits_value 0 false ds); congruence.
Qed.

(** *** Creating a session *)

(** A form that lacks the title, the date, the time or the duration, or
    whose duration is not an integer literal, is dropped: the browser is
    sent back to the dashboard, nothing is stored and nothing is sent. *)
Theorem create_session_drops_bad_form
    (token chat : option string) (urlopen : network) (uid : Z) (form : form_data)
    (w : world) :
  truthy (strip (form_get form "title" "")) = false
  \/ truthy (strip (form_get form "session_date" "")) = false
  \/ truthy (strip (form_get form "session_time" "")) = false
  \/ truthy (strip (form_get form "duration_min" "")) = false
  \/ int_of_str (strip (form_get form "duration_min" "")) = Raise ValueError ->
  create_session token chat urlopen uid form w = (Ok (Redirect "dashboard"), w).
Proof.
  intros H. unfold create_session.
  destruct (truthy (strip (form_get form "title" ""))) eqn:H1; [|reflexivity].
  destruct (truthy (strip (form_get form "session_date" ""))) eqn:H2; [|reflexivity].
  destruct (truthy (strip (form_get form "session_time" ""))) eqn:H3; [|reflexivity].
  destruct (truthy (strip (form_get form "duration_min" ""))) eqn:H4; [|reflexivity].
  cbn [negb orb].
  destruct H as [H|[H|[H|[H|H]]]]; try discriminate.
  now rewrite H.
Qed.


(** *** Import *)

Lemma select_subject_id_new (uid : Z) (nm col : string) (d : db) :
  select_subject_id uid nm d = None ->
  select_subject_id uid nm (insert_subject uid nm col d) = Some (next_subject_id d).
Proof.
  unfold select_subject_id, insert_subject. cbn [subjects].
  rewrite filter_app.
  destruct (filter _ (subjects d)) as [|s l]; [|discriminate]. intros _.
  simpl. now rewrite Z.eqb_refl, String.eqb_refl.
Qed.

(** What [resolve_subject] does, as one step on the store. *)
Lemma resolve_subject_effect (uid : Z) (nm : string) (w : world) :
  exists lg : list db_call,
    resolve_subject uid nm w =
    (Ok (fst (resolved_subject uid nm (store w))),
     mkWorld (snd (resolved_subject uid nm (store w))) (db_log w ++ lg) (outbox w)).
Proof.
  unfold resolve_subject, resolved_subject. destruct (truthy nm).
  - unfold bind, query. cbn [store db_log outbox].
    destruct (select_subject_id uid nm (store w)) as [sid|] eqn:E.
    + eexists. unfold ret. cbn. reflexivity.
    + unfold execute. cbn [store db_log outbox].
      rewrite (select_subject_id_new uid nm _ _ E).
      eexists. unfold ret. cbn. rewrite <- !app_assoc. reflexivity.
  - exists []. unfold ret. rewrite app_nil_r. now destruct w.
Qed.


(** A blank subject name resolves to no subject, without any store access. *)
Lemma resolve_subject_blank (uid : Z) (nm : string) (w : world) :
  truthy nm = false -> resolve_subject uid nm w = (Ok None, w).
Proof. intros H. unfold resolve_subject. now rewrite H. Qed.

Lemma resolved_subject_sessions (uid : Z) (nm : string) (d : db) :
  sessions (snd (resolved_subject uid nm d)) = sessions d
  /\ next_session_id (snd (resolved_subject uid nm d)) = next_session_id d.
Proof.
  unfold resolved_subject. destruct (truthy nm); [|now split].
  destruct (select_subject_id uid nm d); now split.
Qed.









(** An incomplete record whose numbers are fine leaves no trace. *)
Lemma import_csv_row_skipped (uid : Z) (r : csv_row) (w : world) :
  csv_incomplete r = true ->
  csv_number_converts r "duration_min" = true ->
  csv_number_converts r "completed" = true ->
  import_csv_row uid r w = (Ok tt, w).
Proof.
  unfold csv_incomplete, csv_number_converts, import_csv_row. intros Hinc Hd Hc.
  unfold bind, lift.
  destruct (lookup "duration_min" r) as [s|].
  - destruct (truthy s).
    + destruct (int_of_str s); [|discriminate].
      destruct (lookup "completed" r) as [c|].
      * destruct (truthy c).
        -- destruct (int_of_str c); [|discriminate]. now rewrite Hinc.
        -- now rewrite Hinc.
      * now rewrite Hinc.
    + destruct (lookup "completed" r) as [c|].
      * destruct (truthy c).
        -- destruct (int_of_str c); [|discriminate]. now rewrite Hinc.
        -- now rewrite Hinc.
      * now rewrite Hinc.
  - destruct (lookup "completed" r) as [c|].
    + destruct (truthy c).
      * destruct (int_of_str c); [|discriminate]. now rewrite Hinc.
      * now rewrite Hinc.
    + now rewrite Hinc.
Qed.

(** A record whose duration is no integer fails before anything is stored. *)
Lemma import_csv_row_bad_duration (uid : Z) (r : csv_row) (w : world) (s : string)
    (e : exn) :
  lookup "duration_min" r = Some s -> truthy s = true ->
  int_of_str s = Raise e ->
  import_csv_row uid r w = (Raise ValueError, w).
Proof.
  unfold import_csv_row. intros Hs Ht Hbad.
  rewrite Hs, Ht. unfold bind, lift. rewrite Hbad.
  apply int_of_str_raises_ValueError in Hbad. now subst e.
Qed.

Lemma csv_number_ok_converts (r : csv_row) (k : string) :
  csv_number_ok r k = true -> csv_number_converts r k = true.
Proof. unfold csv_number_ok. intros H. now apply andb_true_iff in H. Qed.

(** A CSV record is converted before it is looked at: a record that lacks a
    title, a date or a time is skipped without a trace when its numbers
    are fine, but still fails the whole request when its duration is not
    an integer. *)
Theorem import_csv_converts_before_skipping (uid : Z) (r : csv_row) (w : world) :
  csv_incomplete r = true ->
  (csv_number_ok r "duration_min" = true ->
   csv_number_ok r "completed" = true ->
   import_csv_row uid r w = (Ok tt, w))
  /\ (forall (s : string) (e : exn),
        lookup "duration_min" r = Some s -> truthy s = true ->
        int_of_str s = Raise e ->
        import_csv_row uid r w = (Raise ValueError, w)).
Proof.
  intros Hinc. split.
  - intros Hd Hc. apply csv_number_ok_converts in Hd, Hc.
    now apply import_csv_row_skipped.
  - intros s e Hs Ht Hbad. now apply (import_csv_row_bad_duration uid r w s e).
Qed.

(** Building blocks of "only adds sessions of the importer". *)

Lemma af_ret (uid : Z) {A} (a : A) : appends_for uid (ret a).
Proof. intros w. split; [reflexivity|]. exists []. now rewrite app_nil_r. Qed.

Lemma af_raise (uid : Z) {A} (e : exn) : appends_for uid (@raise A e).
Proof. intros w. split; [reflexivity|]. exists []. now rewrite app_nil_r. Qed.

Lemma af_lift (uid : Z) {A} (r : result A) : appends_for uid (lift r).
Proof. intros w. split; [reflexivity|]. exists []. now rewrite app_nil_r. Qed.

Lemma af_query (uid : Z) {A} (q : sql) (select : db -> A) :
  appends_for uid (query q select).
Proof. intros w. split; [reflexivity|]. exists []. now rewrite app_nil_r. Qed.

Lemma af_bind (uid : Z) {A B} (m : M A) (k : A -> M B) :
  appends_for uid m -> (forall a, appends_for uid (k a)) ->
  appends_for uid (bind m k).
Proof.
  intros Hm Hk w. unfold bind. specialize (Hm w).
  destruct (m w) as [[a|e] w1]; cbn [snd] in *; [|exact Hm].
  destruct Hm as (O1 & n1 & S1 & F1).
  destruct (Hk a w1) as (O2 & n2 & S2 & F2).
  split; [congruence|]. exists (n1 ++ n2).
  split; [now rewrite S2, S1, app_assoc|]. apply Forall_app. now split.
Qed.

Lemma af_for_each (uid : Z) {X} (xs : list X) (body : X -> M unit) :
  (forall x, appends_for uid (body x)) -> appends_for uid (for_each xs body).
Proof.
  intros H. induction xs as [|x xs IH]; cbn [for_each].
  - apply af_ret.
  - apply af_bind; [apply H|intros _; exact IH].
Qed.

Lemma af_insert_subject (uid : Z) (nm col : string) :
  appends_for uid (execute INSERT_subject (insert_subject uid nm col)).
Proof. intros w. split; [reflexivity|]. exists []. cbn. now rewrite app_nil_r. Qed.

Lemma af_insert_session (uid : Z) (subj : option Z) (ttl sdate stime : string)
    (minutes : Z) (prio nts : string) (compl : Z) :
  appends_for uid
    (execute INSERT_session
       (insert_session uid subj ttl sdate stime minutes prio nts compl)).
Proof.
  intros w. split; [reflexivity|]. eexists. cbn. split; [reflexivity|].
  repeat constructor.
Qed.

Lemma af_resolve_subject (uid : Z) (nm : string) :
  appends_for uid (resolve_subject uid nm).
Proof.
  unfold resolve_subject. destruct (truthy nm); [|apply af_ret].
  apply af_bind; [apply af_query|]. intros [sid|]; [apply af_ret|].
  apply af_bind; [apply af_insert_subject|]. intros _.
  apply af_bind; [apply af_query|]. intros [sid|]; [apply af_ret|apply af_raise].
Qed.

(** Neither import ever changes or removes a session that is already
    there, whatever is uploaded and however the request ends: sessions are
    only added at the end of the table, each owned by the importer and not
    yet marked as reminded, and no request is sent. *)
Theorem imports_only_add_own_sessions
    (uid : Z) (upload_json : option (list item))
    (upload_csv : option (list csv_row)) :
  appends_for uid (import_json uid upload_json)
  /\ appends_for uid (import_csv uid upload_csv).
Proof.
  split.
  - unfold import_json. destruct upload_json as [data|]; [|apply af_ret].
    apply af_bind; [|intros _; apply af_ret].
    apply af_for_each. intros i. unfold import_json_item.
    apply af_bind; [apply af_lift|]. intros minutes.
    apply af_bind; [apply af_resolve_subject|]. intros subj.
    apply af_insert_session.
  - unfold import_csv. destruct upload_csv as [rows|]; [|apply af_ret].
    apply af_bind; [|intros _; apply af_ret].
    apply af_for_each. intros r. unfold import_csv_row.
    apply af_bind; [apply af_lift|]. intros minutes.
    apply af_bind; [apply af_lift|]. intros compl.
    destruct (_ || _); [apply af_ret|].
    apply af_bind; [apply af_resolve_subject|]. intros subj.
    apply af_insert_session.
Qed.

(** A CSV upload whose records the import takes (the numbers convert, and
    those of the complete records fit the store) is imported up to the
    records that lack a title, a date or a time: one session for every
    complete record, each with a non-blank title, date and time, and
    nothing for the others. *)
Theorem import_csv_imports_complete_records (uid : Z) (rows : list csv_row) (w : world) :
  forallb csv_row_imports rows = true ->
  let w' := snd (import_csv uid (Some rows) w) in
  fst (import_csv uid (Some rows) w) = Ok (Redirect "dashboard")
  /\ exists new : list session_row,
       sessions (store w') = sessions (store w) ++ new
       /\ List.length new
          = List.length (filter (fun r => negb (csv_incomplete r)) rows)
       /\ Forall (fun s => truthy (title s) = true
                           /\ truthy (session_date s) = true
                           /\ truthy (session_time s) = true) new.
Proof.
  intros Hall' w'. subst w'.
  assert (Hall : forallb (fun r => csv_number_converts r "duration_min"
                                   && csv_number_converts r "completed") rows = true).
  { rewrite forallb_forall in *. intros r Hr. specialize (Hall' r Hr).
    unfold csv_row_imports in Hall'. rewrite !andb_true_iff in Hall'.
    destruct Hall' as [[Hd Hc] _].
    now rewrite (csv_number_ok_converts _ _ Hd), (csv_number_ok_converts _ _ Hc). }
  clear Hall'.
  assert (Hloop : forall w0 : world,
             exists (new : list session_row) (w1 : world),
               for_each rows (import_csv_row uid) w0 = (Ok tt, w1)
               /\ sessions (store w1) = sessions (store w0) ++ new
               /\ List.length new
                  = List.length (filter (fun r => negb (csv_incomplete r)) rows)
               /\ Forall (fun s => truthy (title s) = true
                                   /\ truthy (session_date s) = true
                                   /\ truthy (session_time s) = true) new).
  { induction rows as [|r rows IH]; intros w0.
    - exists [], w0. cbn. rewrite app_nil_r. repeat split. constructor.
    - cbn [forallb] in Hall. apply andb_true_iff in Hall.
      destruct Hall as [Hr Hall]. apply andb_true_iff in Hr. destruct Hr as [Hd Hc].
      specialize (IH Hall).
      destruct (csv_incomplete r) eqn:Hinc.
      + pose proof (import_csv_row_skipped uid r w0 Hinc) as Hskip.
        destruct (IH w0) as (new & w1 & E & S & L & F).
        exists new, w1. cbn [for_each filter]. unfold bind.
        rewrite (Hskip Hd Hc), Hinc. cbn [negb]. now repeat split.
      + assert (Hrow : exists (s : session_row) (w1 : world),
                   import_csv_row uid r w0 = (Ok tt, w1)
                   /\ sessions (store w1) = sessions (store w0) ++ [s]
                   /\ truthy (title s) = true /\ truthy (session_date s) = true
                   /\ truthy (session_time s) = true).
        { unfold csv_incomplete in Hinc. unfold csv_number_converts in Hd, Hc.
          unfold import_csv_row. unfold bind at 1. unfold lift.
          assert (Hdur : exists n,
                     match lookup "duration_min" r with
                     | Some s => if truthy s then int_of_str s else Ok 30
                     | None => Ok 30
                     end = Ok n).
          { destruct (lookup "duration_min" r) as [s|]; [|now exists 30].
            destruct (truthy s); [|now exists 30].
            destruct (int_of_str s) as [n|]; [now exists n|discriminate]. }
          assert (Hcom : exists n,
                     match lookup "completed" r with
                     | Some s => if truthy s then int_of_str s else Ok 0
                     | None => Ok 0
                     end = Ok n).
          { destruct (lookup "completed" r) as [s|]; [|now exists 0].
            destruct (truthy s); [|now exists 0].
            destruct (int_of_str s) as [n|]; [now exists n|discriminate]. }
          destruct Hdur as (n & ->). destruct Hcom as (c & Ec).
          unfold bind at 1. rewrite Ec. rewrite Hinc.
          set (nm := strip (or_default (lookup "subject" r) "")).
          destruct (resolve_subject_effect uid nm w0) as (lg & E).
          destruct (resolved_subject_sessions uid nm (store w0)) as [Hs _].
          unfold bind. rewrite E. unfold execute. cbn [store db_log outbox].
          eexists _, _. split; [reflexivity|].
          cbn [store insert_session sessions]. rewrite Hs.
          split; [reflexivity|].
          cbn [title session_date session_time].
          apply orb_false_iff in Hinc. destruct Hinc as [H12 H3].
          apply orb_false_iff in H12. destruct H12 as [H1 H2].
          apply negb_false_iff in H1, H2, H3. now repeat split. }
        destruct Hrow as (s & w1 & E1 & S1 & T1 & T2 & T3).
        destruct (IH w1) as (new & w2 & E & S & L & F).
        exists (s :: new), w2. cbn [for_each filter]. unfold bind.
        rewrite E1, E, Hinc. cbn [negb List.length].
        split; [reflexivity|]. split; [now rewrite S, S1, <- app_assoc|].
        split; [now rewrite L|]. constructor; [now repeat split|exact F]. }
  destruct (Hloop w) as (new & w1 & E & S & L & F).
  unfold import_csv, bind. rewrite E. cbn [fst snd ret].
  split; [reflexivity|]. now exists new.
Qed.

(** *** More on the sweep *)

Lemma Forall2_map_same {A} (R : A -> A -> Prop) (g : A -> A) (l : list A) :
  (forall x, In x l -> R x (g x)) -> Forall2 R l (map g l).
Proof.
  induction l as [|x l IH]; simpl; intros H; constructor.
  - apply H. now left.
  - apply IH. intros y Hy. apply H. now right.
Qed.

(** The world a sweep leaves, in every configuration. *)
Lemma send_due_reminders_world
    (token chat : option string) (urlopen : network) (uid : Z) (now : datetime)
    (w : world) :
  let due := sweep_due token chat uid now (store w) in
  store (snd (send_due_reminders token chat urlopen uid now w))
  = with_sessions (store w) (mark_sent (map row_id due) (sessions (store w)))
  /\ sent_between w (snd (send_due_reminders token chat urlopen uid now w))
     = map (fun r => telegram_request token chat (reminder_text r)) due.
Proof.
  intros due. subst due. unfold sweep_due.
  assert (Hsame : forall v : world, sent_between v v = []).
  { intros v. unfold sent_between.
    rewrite <- (app_nil_r (outbox v)) at 2. apply skipn_length_app. }
  destruct (configured token chat) eqn:Hc.
  - destruct (add_minutes now REMINDER_MINUTES) as [window_end|e] eqn:Hw.
    + rewrite (send_due_reminders_effect token chat urlopen uid now window_end w Hc Hw).
      cbn [snd store]. split; [reflexivity|].
      unfold sent_between. cbn [outbox]. apply skipn_length_app.
    + assert (E : send_due_reminders token chat urlopen uid now w = (Raise e, w)).
      { unfold send_due_reminders. rewrite (configured_unset _ _ Hc).
        unfold bind, lift. now rewrite Hw. }
      rewrite E. cbn [snd map]. now rewrite mark_sent_nil, with_sessions_same, Hsame.
  - rewrite send_due_reminders_unconfigured.
    + cbn [snd map]. now rewrite mark_sent_nil, with_sessions_same, Hsame.
    + unfold configured in Hc. now destruct (_ || _).
Qed.

(** A sweep for one user adds and removes no session and leaves the
    sessions of every other user, and the subjects, exactly as they were:
    a row either stays or is one of that user's open sessions of today and
    gets [reminder_sent = 1], nothing else in it changing. *)
Theorem sweep_touches_only_open_sessions_of_the_user
    (token chat : option string) (urlopen : network) (uid : Z) (now : datetime)
    (w : world) :
  NoDup (map id (sessions (store w))) ->
  let w' := snd (send_due_reminders token chat urlopen uid now w) in
  Forall2 (fun r r' =>
             r' = r
             \/ (r' = set_reminder_sent r 1 /\ user_id r = uid
                 /\ session_date r = isoformat (dt_date now)
                 /\ completed r = 0 /\ reminder_sent r = 0))
          (sessions (store w)) (sessions (store w'))
  /\ subjects (store w') = subjects (store w)
  /\ next_session_id (store w') = next_session_id (store w).
Proof.
  intros Hnd w'. subst w'.
  destruct (send_due_reminders_world token chat urlopen uid now w) as [E _].
  rewrite E. cbn [sessions subjects next_session_id with_sessions].
  split; [|split; reflexivity].
  unfold mark_sent. apply Forall2_map_same. intros r Hr.
  destruct (existsb (Z.eqb (id r)) _) eqn:Ex; [right|now left].
  apply existsb_eqb_In in Ex. unfold sweep_due in Ex.
  destruct (configured token chat); [|contradiction].
  destruct (add_minutes now REMINDER_MINUTES) as [window_end|]; [|contradiction].
  apply (due_id_iff uid now window_end (store w) r Hnd Hr) in Ex.
  apply (due_candidates_In uid now window_end (store w) r Hr) in Ex.
  destruct Ex as [(s' & Hs' & Hcol & Hd) _].
  assert (s' = r) as ->.
  { apply (id_unique _ s' r Hnd Hs' Hr). now apply (f_equal row_id) in Hcol. }
  apply due_where_spec in Hd. tauto.
Qed.





(** *** Placeholders *)

Lemma replace_qmark_app (a b : string) :
  replace_qmark (a ++ b) = (replace_qmark a ++ replace_qmark b)%string.
Proof.
  induction a as [|c a IH]; [reflexivity|]. cbn [append replace_qmark].
  destruct (Ascii.eqb c "?"); cbn [append]; now rewrite IH.
Qed.

Lemma replace_qmark_none (sql : string) :
  has_char "?" sql = false -> replace_qmark sql = sql.
Proof.
  induction sql as [|c rest IH]; [reflexivity|]. cbn [has_char replace_qmark].
  intros H. apply orb_false_iff in H. destruct H as [Hc Hrest].
  now rewrite Hc, (IH Hrest).
Qed.

(** On SQLite a statement is passed as written; on Postgres every [?]
    becomes [%s] and nothing else changes: a statement without a question
    mark stays as it is, and a statement splits at any question mark into
    the adapted text before it, [%s], and the adapted text after it.  So no
    question mark is left, the text grows by one character for each, and
    adapting again changes nothing. *)
Theorem adapt_sql_swaps_every_placeholder (sql : string) :
  adapt_sql false sql = sql
  /\ (has_char "?" sql = false -> adapt_sql true sql = sql)
  /\ (forall a b : string,
        sql = (a ++ "?" ++ b)%string ->
        adapt_sql true sql = (adapt_sql true a ++ "%s" ++ adapt_sql true b)%string)
  /\ has_char "?" (adapt_sql true sql) = false
  /\ String.length (adapt_sql true sql)
     = (String.length sql + count_qmark sql)%nat
  /\ adapt_sql true (adapt_sql true sql) = adapt_sql true sql.
Proof.
  unfold adapt_sql. split; [reflexivity|].
  split; [apply replace_qmark_none|].
  split; [intros a b ->; now rewrite !replace_qmark_app|].
  induction sql as [|c rest (IH1 & IH2 & IH3)]; [now repeat split|].
  cbn [replace_qmark count_qmark].
  destruct (Ascii.eqb c "?") eqn:E.
  - cbn [has_char String.length replace_qmark]. repeat split.
    + exact IH1.
    + rewrite IH2. lia.
    + cbn. now rewrite IH3.
  - cbn [has_char String.length replace_qmark]. rewrite E. repeat split.
    + exact IH1.
    + rewrite IH2. lia.
    + now rewrite IH3.
Qed.

(** *** Dates and times as text *)

Lemma range_cases (P : Z -> Prop) (lo : Z) (n : nat) :
  (forall k : nat, (k < n)%nat -> P (lo + Z.of_nat k)) ->
  forall v : Z, lo <= v < lo + Z.of_nat n -> P v.
Proof.
  intros H v Hv. replace v with (lo + Z.of_nat (Z.to_nat (v - lo))) by lia.
  apply H. lia.
Qed.

Lemma m_bind_first {A B} (p : matcher A) (k : A -> matcher B) (s r : list Z)
    (a : A) (junk : list (A * list Z)) (x : B * list Z) :
  p s = (a, r) :: junk ->
  hd_error (k a r) = Some x ->
  hd_error (m_bind p k s) = Some x.
Proof.
  intros Hp Hk. unfold m_bind. rewrite Hp. simpl.
  destruct (k a r); simpl in *; congruence.
Qed.

(** The characters of an ASCII text are its bytes. *)
Lemma codepoints_ascii (a t : string) :
  is_ascii a = true -> codepoints (a ++ t) = bytes a ++ codepoints t.
Proof.
  induction a as [|c a IH]; intros H; [reflexivity|].
  cbn [is_ascii] in H. apply andb_true_iff in H. destruct H as [Hc Ha].
  cbn [append codepoints bytes app]. rewrite Hc. now rewrite (IH Ha).
Qed.

Lemma codepoints_ascii_whole (a : string) :
  is_ascii a = true -> codepoints a = bytes a.
Proof.
  intros H. rewrite <- (append_nil_r a) at 1.
  rewrite (codepoints_ascii a "" H). apply app_nil_r.
Qed.

Lemma is_ascii_app (a b : string) :
  is_ascii (a ++ b) = is_ascii a && is_ascii b.
Proof.
  induction a as [|c a IH]; [reflexivity|]. cbn [append is_ascii].
  now rewrite IH, andb_assoc.
Qed.

(** Four-digit years. *)
Lemma zfill4_table :
  forallb (fun k : nat =>
             is_ascii (zfill 4 (Z.of_nat k))
             && match map decimal (bytes (zfill 4 (Z.of_nat k))) with
                | [Some a; Some b; Some c; Some d] =>
                    1000 * a + 100 * b + 10 * c + d =? Z.of_nat k
                | _ => false
                end)
          (seq 0 (Z.to_nat 10000)) = true.
Proof. vm_compute. reflexivity. Qed.

Lemma zfill4_row (y : Z) :
  0 <= y <= 9999 ->
  is_ascii (zfill 4 y) = true
  /\ exists a b c d pa pb pc pd,
       bytes (zfill 4 y) = [pa; pb; pc; pd]
       /\ decimal pa = Some a /\ decimal pb = Some b
       /\ decimal pc = Some c /\ decimal pd = Some d
       /\ 1000 * a + 100 * b + 10 * c + d = y.
Proof.
  intros Hy. pose proof zfill4_table as T. rewrite forallb_forall in T.
  specialize (T (Z.to_nat y)). rewrite Z2Nat.id in T by lia.
  assert (Hin : In (Z.to_nat y) (seq 0 (Z.to_nat 10000))) by (apply in_seq; lia).
  specialize (T Hin). apply andb_true_iff in T. destruct T as [Ha T].
  split; [exact Ha|].
  destruct (bytes (zfill 4 y)) as [|pa [|pb [|pc [|pd [|pe l]]]]]; cbn [map] in T;
    try discriminate T.
  all: destruct (decimal pa) as [a|] eqn:Ea; try discriminate T.
  all: destruct (decimal pb) as [b|] eqn:Eb; try discriminate T.
  all: destruct (decimal pc) as [c|] eqn:Ec; try discriminate T.
  all: destruct (decimal pd) as [d|] eqn:Ed; try discriminate T.
  apply Z.eqb_eq in T. exists a, b, c, d, pa, pb, pc, pd. repeat split; assumption.
Qed.

Lemma re_Y_zfill (y : Z) (rest : list Z) :
  0 <= y <= 9999 -> re_Y (bytes (zfill 4 y) ++ rest) = [(y, rest)].
Proof.
  intros Hy.
  destruct (zfill4_row y Hy)
    as (_ & a & b & c & d & pa & pb & pc & pd & -> & Ha & Hb & Hc & Hd & Hv).
  unfold re_Y, m_bind, m_class, m_ret.
  cbn [app flat_map]. rewrite Ha.
  cbn [app flat_map]. rewrite Hb.
  cbn [app flat_map]. rewrite Hc.
  cbn [app flat_map]. rewrite Hd.
  cbn [app flat_map]. now rewrite Hv.
Qed.

(** Two-digit fields. *)
Lemma zfill2_ascii (n : Z) : 0 <= n < 100 -> is_ascii (zfill 2 n) = true.
Proof.
  intros Hn. apply (range_cases (fun n => is_ascii (zfill 2 n) = true) 0 100); [|lia].
  intros k Hk. do 100 (destruct k as [|k]; [reflexivity|]). lia.
Qed.

Lemma re_m_zfill (m : Z) (rest : list Z) :
  1 <= m <= 12 ->
  exists junk, re_m (bytes (zfill 2 m) ++ rest) = (m, rest) :: junk.
Proof.
  intros Hm.
  apply (range_cases
           (fun m => exists junk, re_m (bytes (zfill 2 m) ++ rest) = (m, rest) :: junk)
           1 12); [|lia].
  intros k Hk.
  do 12 (destruct k as [|k]; [eexists; reflexivity|]). lia.
Qed.

Lemma re_d_zfill (d : Z) (rest : list Z) :
  1 <= d <= 31 ->
  exists junk, re_d (bytes (zfill 2 d) ++ rest) = (d, rest) :: junk.
Proof.
  intros Hd.
  apply (range_cases
           (fun d => exists junk, re_d (bytes (zfill 2 d) ++ rest) = (d, rest) :: junk)
           1 31); [|lia].
  intros k Hk.
  do 31 (destruct k as [|k]; [eexists; reflexivity|]). lia.
Qed.

Lemma re_H_zfill (h : Z) (rest : list Z) :
  0 <= h < 24 ->
  exists junk,
    m_spaces_plus (byte " " :: bytes (zfill 2 h) ++ rest)
    = [(0, bytes (zfill 2 h) ++ rest)]
    /\ re_H (bytes (zfill 2 h) ++ rest) = (h, rest) :: junk.
Proof.
  intros Hh.
  apply (range_cases
           (fun h => exists junk,
                m_spaces_plus (byte " " :: bytes (zfill 2 h) ++ rest)
                = [(0, bytes (zfill 2 h) ++ rest)]
                /\ re_H (bytes (zfill 2 h) ++ rest) = (h, rest) :: junk) 0 24);
    [|lia].
  intros k Hk.
  do 24 (destruct k as [|k]; [eexists; split; reflexivity|]). lia.
Qed.

Lemma re_M_zfill (mi : Z) :
  0 <= mi < 60 ->
  exists junk, re_M (bytes (zfill 2 mi) ++ []) = (mi, []) :: junk.
Proof.
  intros Hmi.
  apply (range_cases
           (fun mi => exists junk, re_M (bytes (zfill 2 mi) ++ []) = (mi, []) :: junk)
           0 60); [|lia].
  intros k Hk.
  do 60 (destruct k as [|k]; [eexists; reflexivity|]). lia.
Qed.

Lemma days_in_month_le_31 (y m : Z) : days_in_month y m <= 31.
Proof.
  unfold days_in_month.
  destruct (m =? 2); [destruct (is_leap y); lia|].
  destruct (_ || _); lia.
Qed.

(** The characters of an ISO date: four digits, two and two, with dashes. *)
Lemma codepoints_isoformat (d : date) (t : string) :
  valid_date d = true ->
  codepoints (isoformat d ++ t)
  = bytes (zfill 4 (year d)) ++ byte "-" :: bytes (zfill 2 (month d))
    ++ byte "-" :: bytes (zfill 2 (day d)) ++ codepoints t.
Proof.
  intros Hv. unfold valid_date, MINYEAR, MAXYEAR in Hv.
  rewrite !andb_true_iff, !Z.leb_le in Hv.
  destruct Hv as [[[[[Hy1 Hy2] Hm1] Hm2] Hd1] Hd2].
  pose proof (days_in_month_le_31 (year d) (month d)) as Hd3.
  destruct (zfill4_row (year d) ltac:(lia)) as [Hy _].
  pose proof (zfill2_ascii (month d) ltac:(lia)) as Hm.
  pose proof (zfill2_ascii (day d) ltac:(lia)) as Hd.
  unfold isoformat. rewrite !append_assoc.
  rewrite (codepoints_ascii _ _ Hy).
  rewrite (codepoints_ascii "-" _ eq_refl).
  rewrite (codepoints_ascii _ _ Hm).
  rewrite (codepoints_ascii "-" _ eq_refl).
  rewrite (codepoints_ascii _ _ Hd).
  reflexivity.
Qed.

(** The first match of the format on an ISO date, a blank and [HH:MM]. *)
Lemma re_format_isoformat_hhmm (d : date) (h mi : Z) :
  valid_date d = true -> 0 <= h < 24 -> 0 <= mi < 60 ->
  hd_error (re_format (codepoints (isoformat d ++ " " ++ hhmm h mi)%string))
  = Some ((year d, month d, day d, h, mi), []).
Proof.
  intros Hv Hh Hmi. rewrite (codepoints_isoformat d _ Hv).
  unfold valid_date, MINYEAR, MAXYEAR in Hv.
  rewrite !andb_true_iff, !Z.leb_le in Hv.
  destruct Hv as [[[[[Hy1 Hy2] Hm1] Hm2] Hd1] Hd2].
  pose proof (days_in_month_le_31 (year d) (month d)) as Hd3.
  assert (Htime : codepoints (" " ++ hhmm h mi)%string
                  = byte " " :: bytes (zfill 2 h) ++ byte ":" :: bytes (zfill 2 mi) ++ []).
  { unfold hhmm. rewrite (codepoints_ascii " " _ eq_refl).
    rewrite (codepoints_ascii _ _ (zfill2_ascii h ltac:(lia))).
    rewrite (codepoints_ascii ":" _ eq_refl).
    rewrite (codepoints_ascii_whole _ (zfill2_ascii mi ltac:(lia))).
    rewrite app_nil_r. reflexivity. }
  rewrite Htime.
  destruct (re_m_zfill (month d)
              (byte "-" :: bytes (zfill 2 (day d)) ++ byte " " :: bytes (zfill 2 h)
                 ++ byte ":" :: bytes (zfill 2 mi) ++ [])
              ltac:(lia)) as [j1 E1].
  destruct (re_d_zfill (day d)
              (byte " " :: bytes (zfill 2 h) ++ byte ":" :: bytes (zfill 2 mi) ++ [])
              ltac:(lia)) as [j2 E2].
  destruct (re_H_zfill h (byte ":" :: bytes (zfill 2 mi) ++ []) Hh) as [j3 [E3 E4]].
  destruct (re_M_zfill mi Hmi) as [j4 E5].
  unfold re_format.
  eapply m_bind_first; [apply re_Y_zfill; lia|].
  eapply m_bind_first; [reflexivity|].
  eapply m_bind_first; [exact E1|].
  eapply m_bind_first; [reflexivity|].
  eapply m_bind_first; [exact E2|].
  eapply m_bind_first; [exact E3|].
  eapply m_bind_first; [exact E4|].
  eapply m_bind_first; [reflexivity|].
  eapply m_bind_first; [exact E5|].
  reflexivity.
Qed.

(** What [strptime] makes of a first match that uses up the text. *)
Lemma strptime_of_first_match (s : string) (y mo dd h mi : Z) :
  hd_error (re_format (codepoints s)) = Some ((y, mo, dd, h, mi), []) ->
  valid_date (mkDate y mo dd) = true ->
  strptime s = Ok (mkDatetime (mkDate y mo dd) h mi 0 0).
Proof.
  intros Hfirst Hv. unfold strptime.
  destruct (re_format (codepoints s)) as [|[[[[[y' m'] d'] h'] mi'] rest'] l];
    [discriminate|].
  cbn [hd_error] in Hfirst. inversion Hfirst; subst.
  now rewrite Hv.
Qed.

(** The ISO text of a date, a blank and a time [HH:MM] parse back to that
    date and time: what [isoformat] writes, [strptime] reads. *)
Theorem strptime_reads_iso_date_and_time (d : date) (h mi : Z) :
  valid_date d = true -> 0 <= h < 24 -> 0 <= mi < 60 ->
  strptime (isoformat d ++ " " ++ hhmm h mi)%string = Ok (mkDatetime d h mi 0 0).
Proof.
  intros Hv Hh Hmi.
  pose proof (re_format_isoformat_hhmm d h mi Hv Hh Hmi) as Hfirst.
  destruct d as [y m dd]. cbn [year month day] in Hfirst.
  now apply strptime_of_first_match.
Qed.

(** *** The window in elapsed time *)






(** *** Tips *)

Lemma filter_filter_implied {A} (p q : A -> bool) (l : list A) :
  (forall x, p x = true -> q x = true) -> filter p (filter q l) = filter p l.
Proof.
  intros H. induction l as [|x l IH]; simpl; [reflexivity|].
  destruct (q x) eqn:Q; simpl.
  - now rewrite IH.
  - destruct (p x) eqn:P; [|exact IH]. apply H in P. congruence.
Qed.

(** The dashboard always has advice to show.  Without sessions it is the
    two starter tips; with sessions there are one to three tips: the one
    about long days exactly when the durations sum to more than 240
    minutes, the one about priorities exactly when at least three sessions
    have the priority "Высокий", and the praise for a good balance only
    alone, when no warning applies. *)
Theorem generate_tips_always_advises (focus_rate_of : Z -> Z -> Z)
    (rows : list session_row) :
  let tips := generate_tips focus_rate_of rows in
  tips <> []
  /\ (List.length tips <= 3)%nat
  /\ (rows = [] -> tips = [tip_start_planning; tip_start_short])
  /\ (rows <> [] ->
      (In tip_long_day tips <-> 240 < fold_right Z.add 0 (map duration_min rows))
      /\ (In tip_many_high tips <->
          (3 <= List.length (filter (String.eqb "Высокий") (map priority rows)))%nat)
      /\ (In tip_balanced tips <-> tips = [tip_balanced])).
Proof.
  intros tips. subst tips. destruct rows as [|r rows].
  - cbn. repeat split; try discriminate; try lia; congruence.
  - unfold generate_tips.
    rewrite (filter_filter_implied (String.eqb "Высокий") truthy).
    2:{ intros x Hx. apply String.eqb_eq in Hx. now subst x. }
    set (fr := if _ =? 0 then 0 else _).
    set (minutes := fold_right Z.add 0 (map duration_min (r :: rows))).
    set (high := List.length (filter (String.eqb "Высокий") (map priority (r :: rows)))).
    destruct (fr <? 50); destruct (Z.ltb_spec 240 minutes) as [Hm|Hm];
      destruct (Nat.leb_spec 3 high) as [Hh|Hh];
      cbn [app List.length In];
      (split; [discriminate|]); (split; [lia|]); (split; [discriminate|]);
      intros _; unfold tip_long_day, tip_many_high, tip_balanced, tip_low_focus;
      repeat split; intros H;
      repeat match goal with
             | H : _ \/ _ |- _ => destruct H as [H|H]
             | H : False |- _ => contradiction
             end;
      try discriminate; try lia; auto.
Qed.

(** *** Numbers as text *)

Lemma digits_value_uint (d : Decimal.uint) :
  forall (acc : Z) (seen : bool),
    d <> Decimal.Nil \/ seen = true ->
    digits_value acc seen (NilEmpty.string_of_uint d) = Some (uint_value acc d).
Proof.
  induction d; intros acc seen H.
  - destruct H as [H|H]; [congruence|]. subst seen. reflexivity.
  - cbn. apply IHd. now right.
  - cbn. apply IHd. now right.
  - cbn. apply IHd. now right.
  - cbn. apply IHd. now right.
  - cbn. apply IHd. now right.
  - cbn. apply IHd. now right.
  - cbn. apply IHd. now right.
  - cbn. apply IHd. now right.
  - cbn. apply IHd. now right.
  - cbn. apply IHd. now right.
Qed.

Lemma uint_value_pos (d : Decimal.uint) :
  forall p : positive, uint_value (Z.pos p) d = Z.pos (Pos.of_uint_acc d p).
Proof.
  induction d; intros p; cbn [uint_value Pos.of_uint_acc];
    try reflexivity;
    match goal with
    | |- uint_value ?a _ = Z.pos (Pos.of_uint_acc _ ?q) =>
        replace a with (Z.pos q) by lia
    end; apply IHd.
Qed.

Lemma uint_value_of_uint (d : Decimal.uint) : uint_value 0 d = Z.of_uint d.
Proof.
  unfold Z.of_uint.
  induction d; cbn [uint_value Pos.of_uint]; try reflexivity;
    try (change (0 * 10 + 0) with 0; exact IHd);
    match goal with
    | |- uint_value ?a _ = _ => change a with (Z.pos (Z.to_pos a))
    end; rewrite uint_value_pos; reflexivity.
Qed.

Lemma c_rstrip_digits (d : Decimal.uint) :
  c_rstrip (NilEmpty.string_of_uint d) = NilEmpty.string_of_uint d.
Proof.
  induction d; cbn [NilEmpty.string_of_uint c_rstrip]; try reflexivity;
    rewrite IHd; destruct (NilEmpty.string_of_uint d); reflexivity.
Qed.

Lemma c_strip_digits (d : Decimal.uint) :
  c_rstrip (c_lstrip (NilEmpty.string_of_uint d)) = NilEmpty.string_of_uint d.
Proof.
  destruct d; [reflexivity|..].
  - exact (c_rstrip_digits (Decimal.D0 d)).
  - exact (c_rstrip_digits (Decimal.D1 d)).
  - exact (c_rstrip_digits (Decimal.D2 d)).
  - exact (c_rstrip_digits (Decimal.D3 d)).
  - exact (c_rstrip_digits (Decimal.D4 d)).
  - exact (c_rstrip_digits (Decimal.D5 d)).
  - exact (c_rstrip_digits (Decimal.D6 d)).
  - exact (c_rstrip_digits (Decimal.D7 d)).
  - exact (c_rstrip_digits (Decimal.D8 d)).
  - exact (c_rstrip_digits (Decimal.D9 d)).
Qed.

(** [int] reads a run of ASCII digits as it stands. *)
Lemma ascii_form_digits (d : Decimal.uint) :
  ascii_form (codepoints (NilEmpty.string_of_uint d))
  = Some (NilEmpty.string_of_uint d).
Proof.
  induction d; [reflexivity|..];
    cbn [NilEmpty.string_of_uint];
    match goal with
    | |- ascii_form (codepoints (String ?c ?t)) = _ =>
        change (codepoints (String c t)) with (byte c :: codepoints t);
        cbn [ascii_form]; rewrite IHd; reflexivity
    end.
Qed.

Lemma int_of_str_uint (d : Decimal.uint) :
  d <> Decimal.Nil ->
  int_of_str (NilEmpty.string_of_uint d) = Ok (Z.of_uint d)
  /\ int_of_str (String "-" (NilEmpty.string_of_uint d)) = Ok (- Z.of_uint d).
Proof.
  intros Hd. split.
  - unfold int_of_str. rewrite ascii_form_digits, c_strip_digits.
    assert (Hsplit : match NilEmpty.string_of_uint d with
                     | String "-" t => (true, t)
                     | String "+" t => (false, t)
                     | _ => (false, NilEmpty.string_of_uint d)
                     end = (false, NilEmpty.string_of_uint d)).
    { destruct d; reflexivity. }
    rewrite Hsplit, digits_value_uint by (now left).
    now rewrite uint_value_of_uint.
  - unfold int_of_str.
    change (codepoints (String "-" (NilEmpty.string_of_uint d)))
      with (byte "-" :: codepoints (NilEmpty.string_of_uint d)).
    cbn [ascii_form]. rewrite ascii_form_digits.
    change (ascii_of_point (byte "-")) with (Some "-"%char). cbv iota.
    assert (Hs : c_rstrip (c_lstrip (String "-" (NilEmpty.string_of_uint d)))
                 = String "-" (NilEmpty.string_of_uint d)).
    { cbn [c_lstrip]. change (c_isspace "-") with false. cbv iota.
      cbn [c_rstrip]. rewrite c_rstrip_digits.
      destruct d; [congruence|reflexivity..]. }
    rewrite Hs, digits_value_uint by (now left).
    now rewrite uint_value_of_uint.
Qed.

(** Writing an integer with [str] and reading it back with [int] gives the
    integer: what the CSV export writes into the number columns, the CSV
    import reads. *)
Lemma int_of_str_str_of_int (n : Z) : int_of_str (str_of_int n) = Ok n.
Proof.
  unfold str_of_int. rewrite <- (DecimalZ.of_to n) at 2.
  destruct n as [|p|p]; cbn [Z.to_int NilZero.string_of_int Z.of_int].
  - reflexivity.
  - pose proof (Unsigned.to_uint_nonnil p) as Hn.
    replace (NilZero.string_of_uint (Pos.to_uint p))
      with (NilEmpty.string_of_uint (Pos.to_uint p))
      by (destruct (Pos.to_uint p); [congruence|reflexivity..]).
    now apply int_of_str_uint.
  - pose proof (Unsigned.to_uint_nonnil p) as Hn.
    replace (NilZero.string_of_uint (Pos.to_uint p))
      with (NilEmpty.string_of_uint (Pos.to_uint p))
      by (destruct (Pos.to_uint p); [congruence|reflexivity..]).
    now apply int_of_str_uint.
Qed.

(** *** Export *)

Lemma filter_key_at_most_one {R : Type} (key : R -> Z) (k : Z) (rows : list R) :
  NoDup (map key rows) ->
  filter (fun x => key x =? k) rows = []
  \/ exists x, filter (fun x => key x =? k) rows = [x].
Proof.
  induction rows as [|x rows IH]; simpl; intros Hnd; [now left|].
  inversion Hnd as [|? ? Hx Hrest]; subst.
  destruct (key x =? k) eqn:E.
  - right. exists x. f_equal.
    destruct (filter (fun y => key y =? k) rows) as [|y l] eqn:F; [reflexivity|].
    exfalso. apply Hx.
    assert (Hy : In y (filter (fun y => key y =? k) rows)) by (rewrite F; now left).
    apply filter_In in Hy. destruct Hy as [Hy Ey].
    apply Z.eqb_eq in E, Ey. apply in_map_iff. exists y. split; [congruence|exact Hy].
  - now apply IH.
Qed.

Lemma joined_subject_names_single (d : db) (r : session_row) :
  NoDup (map subj_id (subjects d)) ->
  exists o : option string, joined_subject_names d r = [o].
Proof.
  intros Hnd. unfold joined_subject_names.
  destruct (subject_id r) as [sj|]; [|now exists None].
  destruct (filter_key_at_most_one subj_id sj (subjects d) Hnd) as [E|[s E]];
    rewrite E; eexists; reflexivity.
Qed.

Lemma select_export_sessions (uid : Z) (d : db) :
  NoDup (map subj_id (subjects d)) ->
  map er_session (select_export uid d)
  = filter (fun r => user_id r =? uid) (sessions d).
Proof.
  intros Hnd. unfold select_export.
  induction (filter (fun r => user_id r =? uid) (sessions d)) as [|r l IH];
    [reflexivity|].
  cbn [flat_map]. rewrite map_app, IH.
  destruct (joined_subject_names_single d r Hnd) as [o ->]. reflexivity.
Qed.

Section ExportProperties.

Variable order_by : list export_row -> list export_row.
Hypothesis order_by_rearranges : forall l, Permutation (order_by l) l.

(** Both exports hold each session of the user exactly once and no
    session of anybody else, whatever order the database returns them in:
    the sessions behind the exported rows are a rearrangement of the
    user's sessions, the JSON payload has one object per session and the
    CSV one line per session after the header. *)
Theorem exports_hold_each_own_session_once (uid : Z) (d : db) :
  NoDup (map subj_id (subjects d)) ->
  let own := filter (fun r => user_id r =? uid) (sessions d) in
  Permutation (map er_session (order_by (select_export uid d))) own
  /\ List.length (export_json order_by uid d) = List.length own
  /\ List.length (export_csv order_by uid d) = S (List.length own)
  /\ Forall (fun e => user_id (er_session e) = uid /\ In (er_session e) (sessions d))
            (order_by (select_export uid d)).
Proof.
  intros Hnd own.
  assert (Hp : Permutation (map er_session (order_by (select_export uid d))) own).
  { unfold own. rewrite <- (select_export_sessions uid d Hnd).
    apply Permutation_map, order_by_rearranges. }
  split; [exact Hp|]. split; [|split].
  - unfold export_json. rewrite length_map.
    rewrite <- (length_map er_session). now apply Permutation_length.
  - unfold export_csv. cbn [List.length]. rewrite length_map.
    rewrite <- (length_map er_session). f_equal. now apply Permutation_length.
  - apply Forall_forall. intros e He.
    assert (Hin : In (er_session e) own).
    { apply (Permutation_in _ Hp). now apply in_map. }
    unfold own in Hin. apply filter_In in Hin. destruct Hin as [Hin Hu].
    apply Z.eqb_eq in Hu. now split.
Qed.

End ExportProperties.

(** One uploaded object whose duration converts, with the subject it gets. *)
Lemma import_json_item_exact (uid : Z) (i : item) (w : world) (n : Z) :
  json_int (item_get i "duration_min" (JInt 30)) = Ok n ->
  let R := resolved_subject uid (strip (json_str (item_get i "subject" (JStr ""))))
             (store w) in
  fst (import_json_item uid i w) = Ok tt
  /\ store (snd (import_json_item uid i w))
     = insert_session uid (fst R)
         (strip (json_str (item_get i "title" (JStr ""))))
         (strip (json_str (item_get i "date" (JStr ""))))
         (strip (json_str (item_get i "time" (JStr ""))))
         n
         (strip (json_str (item_get i "priority" (JStr "Средний"))))
         (strip (json_str (item_get i "notes" (JStr ""))))
         (if json_bool (item_get i "completed" (JInt 0)) then 1 else 0)
         (snd R).
Proof.
  intros Hn R. unfold import_json_item. unfold bind at 1 3. unfold lift.
  rewrite Hn.
  destruct (resolve_subject_effect uid
              (strip (json_str (item_get i "subject" (JStr "")))) w) as (lg & E).
  unfold bind. rewrite E. unfold execute. cbn [fst snd store]. now split.
Qed.

Lemma resolved_subject_found (uid : Z) (nm : string) (d : db) :
  truthy nm = true ->
  exists sid : Z,
    fst (resolved_subject uid nm d) = Some sid
    /\ select_subject_id uid nm (snd (resolved_subject uid nm d)) = Some sid.
Proof.
  intros Hnm. unfold resolved_subject. rewrite Hnm.
  destruct (select_subject_id uid nm d) as [sid|] eqn:E.
  - now exists sid.
  - exists (next_subject_id d). split; [reflexivity|].
    now apply select_subject_id_new.
Qed.

(** Exporting a session as JSON and importing the object again gives a new
    session with the same duration and the same texts, stripped; its
    [completed] is brought to 0 or 1, its [reminder_sent] starts again at
    0, and its subject is found or created by name.  A session without a
    subject is exported with [null] for the name, which the import reads as
    the text "None": its copy hangs on a subject called "None". *)
Theorem json_export_then_import (uid : Z) (e : export_row) (w : world) :
  let r := er_session e in
  let nm := match er_subject_name e with
            | Some x => strip x
            | None => "None"
            end in
  let w' := snd (import_json_item uid (export_item e) w) in
  fst (import_json_item uid (export_item e) w) = Ok tt
  /\ sessions (store w')
     = sessions (store w) ++
         [mkSession (next_session_id (store w)) uid
            (fst (resolved_subject uid nm (store w)))
            (strip (title r)) (strip (session_date r)) (strip (session_time r))
            (duration_min r) (strip (priority r)) (strip (notes r))
            (if completed r =? 0 then 0 else 1) 0]
  /\ (er_subject_name e = None ->
      exists sid : Z,
        fst (resolved_subject uid nm (store w)) = Some sid
        /\ select_subject_id uid "None" (store w') = Some sid).
Proof.
  intros r nm w'. subst w'.
  destruct (import_json_item_exact uid (export_item e) w (duration_min r)
              eq_refl) as [Hok Hst].
  assert (Hnm : strip (json_str (item_get (export_item e) "subject" (JStr ""))) = nm).
  { unfold nm, export_item, item_get. cbn [lookup String.eqb Ascii.eqb Bool.eqb].
    cbn. destruct (er_subject_name e); reflexivity. }
  rewrite Hnm in Hst.
  destruct (resolved_subject_sessions uid nm (store w)) as [Hs Hn].
  split; [exact Hok|]. split.
  - rewrite Hst. cbn [insert_session sessions]. rewrite Hs, Hn.
    unfold export_item, item_get. cbn. fold r.
    now destruct (completed r =? 0).
  - intros Hnone. unfold nm in *. rewrite Hnone in *.
    destruct (resolved_subject_found uid "None" (store w) eq_refl) as (sid & H1 & H2).
    exists sid. split; [exact H1|]. rewrite Hst. exact H2.
Qed.

Lemma truthy_str_of_int (n : Z) : truthy (str_of_int n) = true.
Proof.
  unfold str_of_int. destruct n as [|p|p]; cbn [Z.to_int NilZero.string_of_int];
    try reflexivity.
  destruct (Pos.to_uint p); reflexivity.
Qed.

(** Exporting a session with a title, a date and a time as CSV and
    importing the line again gives a new session with the same duration,
    the same [completed] value and the same texts, stripped, a blank
    priority becoming the default one; [reminder_sent] starts again at 0;
    and a session without a subject stays without one. *)
Theorem csv_export_then_import (uid : Z) (e : export_row) (w : world) :
  let r := er_session e in
  let nm := strip (or_default (er_subject_name e) "") in
  let w' := snd (import_csv_row uid (csv_record (export_csv_fields e)) w) in
  truthy (strip (title r)) = true ->
  truthy (strip (session_date r)) = true ->
  truthy (strip (session_time r)) = true ->
  fst (import_csv_row uid (csv_record (export_csv_fields e)) w) = Ok tt
  /\ sessions (store w')
     = sessions (store w) ++
         [mkSession (next_session_id (store w)) uid
            (fst (resolved_subject uid nm (store w)))
            (strip (title r)) (strip (session_date r)) (strip (session_time r))
            (duration_min r) (strip (or_default (Some (priority r)) "Средний"))
            (strip (notes r)) (completed r) 0]
  /\ (er_subject_name e = None -> fst (resolved_subject uid nm (store w)) = None).
Proof.
  intros r nm w' H1 H2 H3. subst w'.
  unfold import_csv_row, csv_record, export_csv_fields, csv_header.
  cbn [combine lookup String.eqb Ascii.eqb Bool.eqb]. cbn [lookup]. fold r.
  assert (Hsome : forall x : string, strip (or_default (Some x) "") = strip x).
  { intros x. now destruct x. }
  rewrite !truthy_str_of_int, !int_of_str_str_of_int, !Hsome, H1, H2, H3.
  fold nm. cbn [negb orb]. unfold bind at 1 3. unfold lift.
  unfold bind at 1 3.
  destruct (resolve_subject_effect uid nm w) as (lg & E).
  destruct (resolved_subject_sessions uid nm (store w)) as [Hs Hn].
  unfold bind. rewrite E. unfold execute.
  cbn [fst snd store insert_session sessions]. rewrite Hs, Hn.
  split; [reflexivity|]. split; [reflexivity|].
  intros Hnone. unfold nm. rewrite Hnone. reflexivity.
Qed.

(** *** Calendar *)

Lemma days_in_month_ge_28 (y m : Z) : 28 <= days_in_month y m.
Proof.
  unfold days_in_month.
  destruct (m =? 2); [destruct (is_leap y); lia|].
  destruct (_ || _); lia.
Qed.

Lemma valid_date_bounds (d : date) :
  valid_date d = true <->
  MINYEAR <= year d <= MAXYEAR /\ 1 <= month d <= 12
  /\ 1 <= day d <= days_in_month (year d) (month d).
Proof.
  unfold valid_date. rewrite !andb_true_iff, !Z.leb_le. tauto.
Qed.

(** The day before a date is a date, and the day after it is the date. *)
Lemma prev_day_next_day (d d' : date) :
  valid_date d = true -> prev_day d = Ok d' ->
  valid_date d' = true /\ next_day d' = Ok d.
Proof.
  rewrite valid_date_bounds. unfold MINYEAR, MAXYEAR. intros (Hy & Hm & Hd).
  unfold prev_day, next_day. destruct d as [y m dd]. cbn [year month day] in *.
  destruct (Z.ltb_spec 1 dd).
  - intros E. inversion E; subst; clear E. cbn [year month day]. split.
    + apply valid_date_bounds. unfold MINYEAR, MAXYEAR. cbn [year month day]. lia.
    + replace (dd - 1 <? days_in_month y m) with true
        by (symmetry; apply Z.ltb_lt; lia).
      f_equal. f_equal. lia.
  - destruct (Z.ltb_spec 1 m).
    + intros E. inversion E; subst; clear E. cbn [year month day].
      pose proof (days_in_month_ge_28 y (m - 1)). split.
      * apply valid_date_bounds. unfold MINYEAR, MAXYEAR. cbn [year month day]. lia.
      * rewrite Z.ltb_irrefl.
        replace (m - 1 <? 12) with true by (symmetry; apply Z.ltb_lt; lia).
        f_equal. f_equal; lia.
    + unfold MINYEAR, MAXYEAR. destruct (Z.ltb_spec 1 y); [|discriminate].
      intros E. inversion E; subst; clear E. cbn [year month day]. split.
      * apply valid_date_bounds. unfold MINYEAR, MAXYEAR. cbn [year month day].
        change (days_in_month (y - 1) 12) with 31. lia.
      * change (days_in_month (y - 1) 12) with 31. cbn.
        replace (y - 1 <? 9999) with true by (symmetry; apply Z.ltb_lt; lia).
        f_equal. f_equal; lia.
Qed.

Lemma add_days_plus (d : date) (a b : nat) :
  add_days d (a + b) = rbind (add_days d a) (fun x => add_days x b).
Proof.
  revert d. induction a as [|a IH]; intros d; [reflexivity|].
  cbn [add_days Nat.add]. destruct (next_day d) as [d'|e]; [apply IH|reflexivity].
Qed.

(** Going back [n] days and forward [n] days again ends where it began. *)
Lemma sub_days_add_days (n : nat) :
  forall d s : date,
    valid_date d = true -> sub_days d n = Ok s ->
    valid_date s = true /\ add_days s n = Ok d.
Proof.
  induction n as [|n IH]; intros d s Hv Hs.
  - inversion Hs; subst. now split.
  - cbn [sub_days] in Hs. destruct (prev_day d) as [d1|] eqn:Hp; [|discriminate].
    cbn [rbind] in Hs. destruct (prev_day_next_day d d1 Hv Hp) as [Hv1 Hn1].
    destruct (IH d1 s Hv1 Hs) as [Hvs Ha]. split; [exact Hvs|].
    replace (S n) with (n + 1)%nat by lia.
    rewrite add_days_plus, Ha. cbn [rbind add_days]. now rewrite Hn1.
Qed.

Lemma add_days_earlier (d x : date) (a b : nat) :
  add_days d (a + b) = Ok x -> exists y, add_days d a = Ok y.
Proof.
  rewrite add_days_plus. destruct (add_days d a) as [y|]; [now exists y|discriminate].
Qed.

Lemma strptime_date_valid (s : string) (d : date) :
  strptime_date s = Ok d -> valid_date d = true.
Proof.
  unfold strptime_date.
  destruct (re_date_format (codepoints s)) as [|[[[y mo] dd] rest] l];
    [discriminate|].
  destruct rest; [|discriminate].
  destruct (valid_date (mkDate y mo dd)) eqn:E; [|discriminate].
  intros H. inversion H; subst. exact E.
Qed.

Lemma calendar_selected_valid (selected : option string) (today : date) :
  valid_date today = true -> valid_date (calendar_selected selected today) = true.
Proof.
  intros Ht. unfold calendar_selected.
  destruct selected as [s|]; [|exact Ht].
  destruct (truthy s); [|exact Ht].
  destruct (strptime_date s) as [x|] eqn:E; [|exact Ht].
  now apply strptime_date_valid in E.
Qed.

Lemma Forall2_right_In {A B} (R : A -> B -> Prop) (l : list A) (l' : list B) (y : B) :
  Forall2 R l l' -> In y l' -> exists x, In x l /\ R x y.
Proof.
  induction 1 as [|x y' l l' Hxy HF IH]; intros Hin; [contradiction|].
  destruct Hin as [<-|Hin].
  - exists x. split; [now left|exact Hxy].
  - destruct (IH Hin) as (x' & Hx' & HR). exists x'. split; [now right|exact HR].
Qed.

Section CalendarProperties.

Variable text_le : string -> string -> bool.
Variable order_rows : list calendar_row -> list calendar_row.
Hypothesis order_rows_keeps : forall l r, In r (order_rows l) -> In r l.

Lemma select_calendar_In (first last : string) (uid : Z) (d : db) (r : calendar_row) :
  In r (select_calendar text_le order_rows first last uid d) ->
  user_id (cr_session r) = uid /\ In (cr_session r) (sessions d).
Proof.
  unfold select_calendar. intros H. apply order_rows_keeps in H.
  apply in_flat_map in H. destruct H as (s & Hs & Hr).
  apply in_map_iff in Hr. destruct Hr as (nc & <- & _). cbn [cr_session].
  apply filter_In in Hs. destruct Hs as [Hs Hc].
  apply andb_true_iff in Hc. destruct Hc as [_ Hu]. apply Z.eqb_eq in Hu.
  now split.
Qed.

Lemma calendar_days_ok (start : date) (rows : list calendar_row) (offsets : list nat) :
  (forall i, In i offsets -> exists x, add_days start i = Ok x) ->
  exists days : list calendar_day,
    calendar_days start rows offsets = Ok days
    /\ Forall2 (fun i cd =>
                  add_days start i = Ok (cd_date cd)
                  /\ cd_sessions cd
                     = filter (fun r => String.eqb (session_date (cr_session r))
                                                   (isoformat (cd_date cd))) rows)
               offsets days.
Proof.
  induction offsets as [|i offsets IH]; intros H.
  - exists []. split; [reflexivity|constructor].
  - destruct (H i (or_introl eq_refl)) as [x Hx].
    destruct IH as (days & E & F); [intros j Hj; apply H; now right|].
    eexists. cbn [calendar_days]. rewrite Hx, E. cbn [rbind].
    split; [reflexivity|]. constructor; [now split|exact F].
Qed.

(** The calendar shows the week around the selected date.  When the three
    days before and after it exist, it lists seven consecutive days, from
    three days before to three days after, the selected date in the
    middle; the sessions under a day are sessions of the user stored with
    that day's ISO date.  When the week would leave the years 1 to 9999 the
    request fails with [OverflowError]. *)
Theorem calendar_shows_the_week_around_the_date
    (selected : option string) (today : date) (uid : Z) (d : db) :
  valid_date today = true ->
  let sel := calendar_selected selected today in
  (forall start last : date,
      sub_days sel 3 = Ok start -> add_days sel 3 = Ok last ->
      exists days : list calendar_day,
        calendar text_le order_rows selected today uid d = Ok (days, sel)
        /\ Forall2 (fun i cd => add_days start i = Ok (cd_date cd)) (seq 0 7) days
        /\ option_map cd_date (nth_error days 0) = Some start
        /\ option_map cd_date (nth_error days 3) = Some sel
        /\ option_map cd_date (nth_error days 6) = Some last
        /\ Forall (fun cd =>
                     Forall (fun r =>
                               session_date (cr_session r) = isoformat (cd_date cd)
                               /\ user_id (cr_session r) = uid
                               /\ In (cr_session r) (sessions d))
                            (cd_sessions cd))
                  days)
  /\ (forall e, sub_days sel 3 = Raise e \/ add_days sel 3 = Raise e ->
                exists e', calendar text_le order_rows selected today uid d = Raise e').
Proof.
  intros Ht sel. pose proof (calendar_selected_valid selected today Ht) as Hv.
  fold sel in Hv. split.
  - intros start last Hs Ha.
    destruct (sub_days_add_days 3 sel start Hv Hs) as [Hvs Hback].
    assert (H6 : add_days start 6 = Ok last).
    { change 6%nat with (3 + 3)%nat. rewrite add_days_plus, Hback. exact Ha. }
    assert (Hall : forall i, In i (seq 0 7) -> exists x, add_days start i = Ok x).
    { intros i Hi. apply in_seq in Hi.
      apply (add_days_earlier start last i (6 - i)).
      replace (i + (6 - i))%nat with 6%nat by lia. exact H6. }
    set (rows := select_calendar text_le order_rows (isoformat start)
                   (isoformat last) uid d).
    destruct (calendar_days_ok start rows (seq 0 7) Hall) as (days & E & F).
    exists days. unfold calendar. fold sel. rewrite Hs, Ha. cbn [rbind].
    fold rows. rewrite E. cbn [rbind]. split; [reflexivity|].
    assert (Fd : Forall2 (fun i cd => add_days start i = Ok (cd_date cd))
                         (seq 0 7) days).
    { eapply Forall2_impl; [|exact F]. cbn. tauto. }
    split; [exact Fd|].
    cbn [seq] in Fd.
    inversion Fd as [|? c0 ? l0 P0 Q0]; subst.
    inversion Q0 as [|? c1 ? l1 P1 Q1]; subst.
    inversion Q1 as [|? c2 ? l2 P2 Q2]; subst.
    inversion Q2 as [|? c3 ? l3 P3 Q3]; subst.
    inversion Q3 as [|? c4 ? l4 P4 Q4]; subst.
    inversion Q4 as [|? c5 ? l5 P5 Q5]; subst.
    inversion Q5 as [|? c6 ? l6 P6 Q6]; subst.
    cbn [nth_error option_map].
    split; [cbn in P0; congruence|]. split; [congruence|]. split; [congruence|].
    apply Forall_forall. intros cd Hcd.
    destruct (Forall2_right_In _ _ _ _ F Hcd) as (i & _ & _ & Hrows).
    apply Forall_forall. intros r Hr. rewrite Hrows in Hr.
    apply filter_In in Hr. destruct Hr as [Hr Hdate].
    apply String.eqb_eq in Hdate.
    destruct (select_calendar_In _ _ _ _ _ Hr) as [Hu Hin]. now repeat split.
  - intros e [H|H]; unfold calendar; fold sel; rewrite H; cbn [rbind].
    + now exists e.
    + destruct (sub_days sel 3); cbn [rbind]; eexists; reflexivity.
Qed.

End CalendarProperties.

(** The [date] argument of the calendar: the ISO text of a date selects
    that date; a missing, blank or unparsable argument selects today. *)
Theorem calendar_selected_reads_iso_dates (d today : date) :
  valid_date d = true ->
  calendar_selected (Some (isoformat d)) today = d
  /\ calendar_selected None today = today
  /\ calendar_selected (Some EmptyString) today = today
  /\ (forall (s : string) (e : exn),
        strptime_date s = Raise e -> calendar_selected (Some s) today = today).
Proof.
  intros Hv. split; [|split; [reflexivity|split; [reflexivity|]]].
  - destruct d as [y m dd]. pose proof Hv as Hb. apply valid_date_bounds in Hb.
    unfold MINYEAR, MAXYEAR in Hb. cbn [year month day] in Hb.
    destruct Hb as (Hy & Hm & Hd). pose proof (days_in_month_le_31 y m) as H31.
    assert (Hpts : codepoints (isoformat (mkDate y m dd))
                   = bytes (zfill 4 y) ++ byte "-" :: bytes (zfill 2 m)
                     ++ byte "-" :: bytes (zfill 2 dd) ++ []).
    { rewrite <- (append_nil_r (isoformat (mkDate y m dd))).
      apply (codepoints_isoformat (mkDate y m dd) "" Hv). }
    destruct (re_m_zfill m (byte "-" :: bytes (zfill 2 dd) ++ []) Hm) as [j1 E1].
    destruct (re_d_zfill dd [] ltac:(lia)) as [j2 E2].
    assert (Hfirst : hd_error (re_date_format (codepoints (isoformat (mkDate y m dd))))
                     = Some ((y, m, dd), [])).
    { rewrite Hpts. unfold re_date_format.
      eapply m_bind_first; [apply re_Y_zfill; lia|].
      eapply m_bind_first; [reflexivity|].
      eapply m_bind_first; [exact E1|].
      eapply m_bind_first; [reflexivity|].
      eapply m_bind_first; [exact E2|].
      reflexivity. }
    unfold calendar_selected, strptime_date.
    assert (Ht : truthy (isoformat (mkDate y m dd)) = true).
    { unfold isoformat. cbn [year month day]. destruct (zfill 4 y); reflexivity. }
    rewrite Ht.
    destruct (re_date_format _) as [|[[[y' m'] d'] rest'] l]; [discriminate|].
    cbn [hd_error] in Hfirst. inversion Hfirst; subst.
    now rewrite Hv.
  - intros s e H. unfold calendar_selected. rewrite H. now destruct (truthy s).
Qed.

(** *** Subjects *)

(** Subject names are not kept unique: submitting the same name twice
    gives two subjects with that name under two ids, and an import that
    names the subject afterwards hangs its session on the older of the
    user's subjects with that name. *)
Theorem create_subject_allows_duplicates (uid : Z) (form : form_data) (w : world) :
  let nm := strip (form_get form "name" "") in
  let col := strip (form_get form "color" "#e7dfd5") in
  let w2 := snd (create_subject uid form (snd (create_subject uid form w))) in
  truthy nm = true ->
  subjects (store w2)
  = subjects (store w) ++
      [mkSubject (next_subject_id (store w)) uid nm col;
       mkSubject (next_subject_id (store w) + 1) uid nm col]
  /\ sessions (store w2) = sessions (store w)
  /\ exists sid : Z,
       fst (resolve_subject uid nm w2) = Ok (Some sid)
       /\ store (snd (resolve_subject uid nm w2)) = store w2
       /\ match select_subject_id uid nm (store w) with
          | Some old => sid = old
          | None => sid = next_subject_id (store w)
          end.
Proof.
  intros nm col w2 Hnm.
  set (d2 := insert_subject uid nm col (insert_subject uid nm col (store w))).
  assert (Hst : store w2 = d2).
  { subst w2. unfold create_subject. fold nm col. rewrite Hnm. reflexivity. }
  assert (Hsel : select_subject_id uid nm d2
                 = Some (match select_subject_id uid nm (store w) with
                         | Some old => old
                         | None => next_subject_id (store w)
                         end)).
  { unfold d2, select_subject_id, insert_subject. cbn [subjects next_subject_id].
    rewrite !filter_app.
    destruct (filter _ (subjects (store w))) as [|s l]; [|reflexivity].
    cbn. now rewrite Z.eqb_refl, String.eqb_refl. }
  rewrite Hst. split; [|split; [reflexivity|]].
  - unfold d2, insert_subject. cbn [subjects next_subject_id].
    now rewrite <- app_assoc.
  - destruct (resolve_subject_effect uid nm w2) as (lg & E).
    unfold resolved_subject in E. rewrite Hnm, Hst, Hsel in E.
    eexists. rewrite E. cbn [fst snd store]. split; [reflexivity|].
    split; [reflexivity|]. now destruct (select_subject_id uid nm (store w)).
Qed.

(** *** The further theorems at concrete inputs *)

Ltac all_rows H :=
  simpl in H;
  repeat match type of H with
         | _ \/ _ => destruct H as [H|H]
         | False => contradiction
         end; subst.

Lemma toggle_and_delete_need_the_owner_witness :
  (forall r, In r (sessions (store demo_world)) -> id r = 1 -> user_id r <> 8)
  /\ store (snd (toggle_session 8 1 demo_world)) = store demo_world.
Proof.
  assert (H : forall r, In r (sessions (store demo_world)) -> id r = 1 ->
                        user_id r <> 8).
  { intros r Hr _. all_rows Hr; discriminate. }
  split; [exact H|].
  exact (proj1 (toggle_and_delete_need_the_owner 8 1 demo_world H)).
Defined.

Lemma toggle_session_twice_restores_witness :
  (forall r, In r (sessions (store demo_world)) -> id r = 1 -> user_id r = 7 ->
             completed r = 0 \/ completed r = 1)
  /\ store (snd (toggle_session 7 1 (snd (toggle_session 7 1 demo_world))))
     = store demo_world.
Proof.
  assert (H : forall r, In r (sessions (store demo_world)) -> id r = 1 ->
                        user_id r = 7 -> completed r = 0 \/ completed r = 1).
  { intros r Hr _ _. all_rows Hr; simpl; auto. }
  split; [exact H|].
  exact (toggle_session_twice_restores 7 1 demo_world H).
Defined.

Lemma toggle_session_normalises_witness :
  (NoDup (map id (sessions (store odd_world)))
   /\ In (demo_session 1 "10:00" 2 0) (sessions (store odd_world))
   /\ completed (demo_session 1 "10:00" 2 0) <> 1)
  /\ option_map completed
       (find_session (store (snd (toggle_session 7 1 odd_world))) 1) = Some 1.
Proof.
  assert (H1 : NoDup (map id (sessions (store odd_world)))) by primary_key.
  assert (H2 : In (demo_session 1 "10:00" 2 0) (sessions (store odd_world)))
    by (left; reflexivity).
  assert (H3 : completed (demo_session 1 "10:00" 2 0) <> 1) by discriminate.
  split; [repeat split; assumption|].
  exact (proj1 (toggle_session_normalises 7 1 odd_world (demo_session 1 "10:00" 2 0)
                  H1 H2 eq_refl eq_refl H3)).
Defined.

Lemma delete_session_removes_exactly_that_row_witness :
  (NoDup (map id (sessions (store demo_world)))
   /\ In demo_first (sessions (store demo_world)))
  /\ find_session (store (snd (delete_session 7 1 demo_world))) 1 = None.
Proof.
  assert (H1 : NoDup (map id (sessions (store demo_world)))) by primary_key.
  assert (H2 : In demo_first (sessions (store demo_world))) by (left; reflexivity).
  split; [split; assumption|].
  exact (proj1 (proj2 (delete_session_removes_exactly_that_row 7 1 demo_world
                         demo_first H1 H2 eq_refl eq_refl))).
Defined.

Lemma create_session_drops_bad_form_witness :
  truthy (strip (form_get [] "title" "")) = false
  /\ create_session demo_token demo_chat net_up 7 [] demo_world
     = (Ok (Redirect "dashboard"), demo_world).
Proof.
  assert (H : truthy (strip (form_get [] "title" "")) = false) by reflexivity.
  split; [exact H|].
  exact (create_session_drops_bad_form demo_token demo_chat net_up 7 [] demo_world
           (or_introl H)).
Defined.




Lemma import_csv_converts_before_skipping_witness :
  csv_incomplete blank_csv_row = true
  /\ import_csv_row 7 blank_csv_row demo_world = (Raise ValueError, demo_world).
Proof.
  assert (H : csv_incomplete blank_csv_row = true) by reflexivity.
  split; [exact H|].
  exact (proj2 (import_csv_converts_before_skipping 7 blank_csv_row demo_world H)
           "abc" ValueError eq_refl eq_refl eq_refl).
Defined.

Lemma import_csv_imports_complete_records_witness :
  forallb csv_row_imports [short_csv_row] = true
  /\ fst (import_csv 7 (Some [short_csv_row]) demo_world) = Ok (Redirect "dashboard").
Proof.
  assert (H : forallb csv_row_imports [short_csv_row] = true) by reflexivity.
  split; [exact H|].
  exact (proj1 (import_csv_imports_complete_records 7 [short_csv_row] demo_world H)).
Defined.

Lemma sweep_touches_only_open_sessions_of_the_user_witness :
  NoDup (map id (sessions (store demo_world)))
  /\ subjects (store (snd (send_due_reminders demo_token demo_chat net_down 7
                             demo_now demo_world)))
     = subjects (store demo_world).
Proof.
  assert (H : NoDup (map id (sessions (store demo_world)))) by primary_key.
  split; [exact H|].
  exact (proj1 (proj2 (sweep_touches_only_open_sessions_of_the_user demo_token
                         demo_chat net_down 7 demo_now demo_world H))).
Defined.


Lemma strptime_reads_iso_date_and_time_witness :
  (valid_date demo_day = true /\ 0 <= 10 < 24 /\ 0 <= 0 < 60)
  /\ strptime (isoformat demo_day ++ " " ++ hhmm 10 0)%string
     = Ok (mkDatetime demo_day 10 0 0 0).
Proof.
  assert (H1 : valid_date demo_day = true) by reflexivity.
  assert (H2 : 0 <= 10 < 24) by lia.
  assert (H3 : 0 <= 0 < 60) by lia.
  split; [repeat split; try assumption; lia|].
  exact (strptime_reads_iso_date_and_time demo_day 10 0 H1 H2 H3).
Defined.


Lemma exports_hold_each_own_session_once_witness :
  ((forall l : list export_row, Permutation ((fun x => x) l) l)
   /\ NoDup (map subj_id (subjects demo_db)))
  /\ List.length (export_json (fun x => x) 7 demo_db) = 5%nat.
Proof.
  assert (H1 : forall l : list export_row, Permutation ((fun x => x) l) l)
    by (intros l; apply Permutation_refl).
  assert (H2 : NoDup (map subj_id (subjects demo_db))) by constructor.
  split; [split; assumption|].
  exact (proj1 (proj2 (exports_hold_each_own_session_once (fun x => x) H1 7 demo_db
                         H2))).
Defined.

Lemma csv_export_then_import_witness :
  (truthy (strip (title demo_first)) = true
   /\ truthy (strip (session_date demo_first)) = true
   /\ truthy (strip (session_time demo_first)) = true)
  /\ fst (import_csv_row 8
            (csv_record (export_csv_fields (mkExportRow demo_first None)))
            empty_world)
     = Ok tt.
Proof.
  assert (H1 : truthy (strip (title demo_first)) = true) by reflexivity.
  assert (H2 : truthy (strip (session_date demo_first)) = true) by reflexivity.
  assert (H3 : truthy (strip (session_time demo_first)) = true) by reflexivity.
  split; [repeat split; assumption|].
  exact (proj1 (csv_export_then_import 8 (mkExportRow demo_first None) empty_world
                  H1 H2 H3)).
Defined.

Lemma calendar_shows_the_week_around_the_date_witness :
  ((forall (l : list calendar_row) (r : calendar_row),
       In r ((fun x => x) l) -> In r l)
   /\ valid_date demo_day = true)
  /\ exists days : list calendar_day,
       calendar (fun _ _ => true) (fun x => x) None demo_day 7 demo_db
       = Ok (days, demo_day).
Proof.
  assert (H1 : forall (l : list calendar_row) (r : calendar_row),
             In r ((fun x => x) l) -> In r l) by (intros l r H; exact H).
  assert (H2 : valid_date demo_day = true) by reflexivity.
  split; [split; assumption|].
  destruct (proj1 (calendar_shows_the_week_around_the_date (fun _ _ => true)
                     (fun x => x) H1 None demo_day 7 demo_db H2)
              (mkDate 2024 3 2) (mkDate 2024 3 8) eq_refl eq_refl)
    as (days & E & _).
  exists days. exact E.
Defined.

Lemma calendar_selected_reads_iso_dates_witness :
  valid_date demo_day = true
  /\ calendar_selected (Some (isoformat demo_day)) (mkDate 2024 1 1) = demo_day.
Proof.
  assert (H : valid_date demo_day = true) by reflexivity.
  split; [exact H|].
  exact (proj1 (calendar_selected_reads_iso_dates demo_day (mkDate 2024 1 1) H)).
Defined.

Lemma create_subject_allows_duplicates_witness :
  truthy (strip (form_get [("name", "Math")] "name" "")) = true
  /\ sessions (store (snd (create_subject 7 [("name", "Math")]
                             (snd (create_subject 7 [("name", "Math")] demo_world)))))
     = sessions (store demo_world).
Proof.
  assert (H : truthy (strip (form_get [("name", "Math")] "name" "")) = true)
    by reflexivity.
  split; [exact H|].
  exact (proj1 (proj2 (create_subject_allows_duplicates 7 [("name", "Math")]
                         demo_world H))).
Defined.
